(** * The waste controller of ewastepas-courier-be

    A shallow embedding of [src/controllers/wasteController.js]: the response
    envelope builder, the validation helpers, the request handler wrapper, the
    four endpoint handlers and the cache decorator, with the properties the
    specification states about them.

    JavaScript values are an inductive type, numbers are the integer-valued
    doubles together with NaN and the two infinities, objects are association
    lists in insertion order, the cache's [Map] is a [gmap], and the code that
    writes a response, logs, reads the clock or allocates a store runs in a
    small state-and-exception monad. *)

From Stdlib Require Import ZArith List String Ascii Bool Lia DecimalString DecimalPos.
From stdpp Require Import base option list gmap strings.

Local Open Scope string_scope.
Local Open Scope Z_scope.

(** ** JavaScript numbers *)

Module JSNumber.

(** The numbers this controller computes with are integer valued (results of
    [parseInt], lengths, counts, products of those): [Fin z] is the double whose
    value is the integer [z]; [+0] and [-0] are both [Fin 0]. *)
Inductive number : Type :=
| NaN
| Fin (z : Z)
| PInf
| NInf.

#[global] Instance number_eq_dec : EqDecision number.
Proof. solve_decision. Defined.

(** The double nearest to an integer: round to nearest, ties to even, on a
    53-bit significand; integers that round to [2^1024] or more overflow. *)
Definition F (z : Z) : number :=
  let a := Z.abs z in
  if a <? 2 ^ 53 then Fin z
  else
    let e := Z.log2 a - 52 in
    let q := Z.shiftr a e in
    let r := Z.land a (Z.ones e) in
    let half := Z.shiftl 1 (e - 1) in
    let q' := if (half <? r) || ((r =? half) && Z.odd q) then q + 1 else q in
    let m := Z.shiftl q' e in
    if 2 ^ 1024 <=? m then (if z <? 0 then NInf else PInf)
    else Fin (Z.sgn z * m).

Definition isNaN (x : number) : bool :=
  match x with NaN => true | _ => false end.

(** [x < y], [x <= y], [x > y] of the language: false as soon as one side is NaN. *)
Definition lt (x y : number) : bool :=
  match x, y with
  | NaN, _ | _, NaN => false
  | Fin a, Fin b => a <? b
  | NInf, NInf => false
  | NInf, _ => true
  | _, NInf => false
  | PInf, _ => false
  | Fin _, PInf => true
  end.

Definition le (x y : number) : bool :=
  match x, y with
  | NaN, _ | _, NaN => false
  | Fin a, Fin b => a <=? b
  | NInf, _ => true
  | _, PInf => true
  | PInf, _ => false
  | Fin _, NInf => false
  end.

Definition gt (x y : number) : bool := lt y x.

Definition neg (x : number) : number :=
  match x with
  | NaN => NaN
  | Fin a => Fin (- a)
  | PInf => NInf
  | NInf => PInf
  end.

Definition add (x y : number) : number :=
  match x, y with
  | NaN, _ | _, NaN => NaN
  | Fin a, Fin b => F (a + b)
  | PInf, NInf | NInf, PInf => NaN
  | PInf, _ | _, PInf => PInf
  | NInf, _ | _, NInf => NInf
  end.

Definition sub (x y : number) : number := add x (neg y).

Definition mul (x y : number) : number :=
  match x, y with
  | NaN, _ | _, NaN => NaN
  | Fin a, Fin b => F (a * b)
  | Fin a, PInf | PInf, Fin a =>
      if a =? 0 then NaN else if a <? 0 then NInf else PInf
  | Fin a, NInf | NInf, Fin a =>
      if a =? 0 then NaN else if a <? 0 then PInf else NInf
  | PInf, PInf | NInf, NInf => PInf
  | PInf, NInf | NInf, PInf => NInf
  end.

(** [Math.max(x, y)] and [Math.min(x, y)]: NaN as soon as one argument is. *)
Definition max (x y : number) : number :=
  match x, y with
  | NaN, _ | _, NaN => NaN
  | _, _ => if lt x y then y else x
  end.

Definition min (x y : number) : number :=
  match x, y with
  | NaN, _ | _, NaN => NaN
  | _, _ => if lt y x then y else x
  end.

(** [Math.ceil(x / y)]. The quotient of two integers is taken exactly, which
    is what the double division followed by [Math.ceil] yields as long as the
    quotient stays below [2^47] (the rounding error of the division is then
    smaller than the distance of a non-integer quotient to the next integer
    for divisors up to 100). *)
Definition ceil_div (x y : number) : number :=
  match x, y with
  | NaN, _ | _, NaN => NaN
  | Fin a, Fin b =>
      if b =? 0 then (if a =? 0 then NaN else if a <? 0 then NInf else PInf)
      else F (- ((- a) / b))
  | Fin _, (PInf | NInf) => Fin 0
  | (PInf | NInf), (PInf | NInf) => NaN
  | PInf, Fin b => if b <? 0 then NInf else PInf
  | NInf, Fin b => if b <? 0 then PInf else NInf
  end.

(** [Number.isInteger]. *)
Definition isInteger (x : number) : bool :=
  match x with Fin _ => true | _ => false end.

End JSNumber.
Export JSNumber.

Coercion Fin : Z >-> number.

(** ** JavaScript strings *)

Module JSString.

(** A character is one code unit below 256. White space and line
    terminators in that range: TAB, LF, VT, FF, CR, SP and NBSP. *)
Definition is_white_space (c : ascii) : bool :=
  let n := Z.of_N (N_of_ascii c) in
  ((9 <=? n) && (n <=? 13)) || (n =? 32) || (n =? 160).

Fixpoint trim_start (s : string) : string :=
  match s with
  | String c s' => if is_white_space c then trim_start s' else s
  | EmptyString => EmptyString
  end.

Fixpoint rev_onto (s acc : string) : string :=
  match s with
  | String c s' => rev_onto s' (String c acc)
  | EmptyString => acc
  end.

Definition rev (s : string) : string := rev_onto s EmptyString.

(** [String.prototype.trim] *)
Definition trim (s : string) : string :=
  rev (trim_start (rev (trim_start s))).

Definition digit_of (c : ascii) : option Z :=
  let n := Z.of_N (N_of_ascii c) in
  if (48 <=? n) && (n <=? 57) then Some (n - 48) else None.

(** The longest prefix of decimal digits, as the integer it denotes;
    [acc] is [None] until a first digit has been read. *)
Fixpoint read_digits (s : string) (acc : option Z) : option Z :=
  match s with
  | String c s' =>
      match digit_of c with
      | Some d => read_digits s' (Some (10 * default 0 acc + d))
      | None => acc
      end
  | EmptyString => acc
  end.

(** [parseInt(s, 10)] on a string: leading white space is skipped, one sign
    is read, then the digits up to the first other character; no digit
    gives NaN. *)
Definition parseInt_string (s : string) : number :=
  let s1 := trim_start s in
  let '(sign, s2) :=
    match s1 with
    | String "-" r => (-1, r)
    | String "+" r => (1, r)
    | _ => (1, s1)
    end in
  match read_digits s2 None with
  | None => NaN
  | Some m => F (sign * m)
  end.

(** Decimal digits of an integer, with a minus sign when negative. *)
Definition dec (z : Z) : string := NilZero.string_of_int (Z.to_int z).

Fixpoint zeros (n : nat) : string :=
  match n with O => "" | S n' => String "0" (zeros n') end.

Fixpoint strip_zeros_start (s : string) : string :=
  match s with
  | String "0" s' => strip_zeros_start s'
  | _ => s
  end.

Definition strip_zeros_end (s : string) : string :=
  rev (strip_zeros_start (rev s)).

(** The shortest significand [s] (of [k] digits, [k] counted up from the given
    one) such that [s * 10^(n-k)] still reads back as the double [a]; [n] is
    the number of decimal digits of [a]. *)
Fixpoint shortest_digits (fuel : nat) (k a n : Z) : Z * Z :=
  match fuel with
  | O => (a, n)
  | S fuel' =>
      let p := 10 ^ (n - k) in
      let lo := a / p in
      let hi := lo + 1 in
      let near := if 2 * (a - lo * p) <=? p then lo else hi in
      let far := if 2 * (a - lo * p) <=? p then hi else lo in
      if decide (F (near * p) = Fin a) then (near, k)
      else if decide (F (far * p) = Fin a) then (far, k)
      else shortest_digits fuel' (k + 1) a n
  end.

(** [Number::toString] of a positive integer-valued double. *)
Definition positive_to_string (a : Z) : string :=
  let n := Z.of_nat (String.length (dec a)) in
  let '(s, k) := if a <? 2 ^ 53 then (a, n) else shortest_digits 17 1 a n in
  let all := dec s ++ zeros (Z.to_nat (n - k)) in
  let len := Z.of_nat (String.length all) in
  if len <=? 21 then all
  else
    match strip_zeros_end (dec s) with
    | String d EmptyString => String d ("e+" ++ dec (len - 1))
    | String d rest => String d ("." ++ rest ++ "e+" ++ dec (len - 1))
    | EmptyString => all
    end.

Definition number_to_string (x : number) : string :=
  match x with
  | NaN => "NaN"
  | PInf => "Infinity"
  | NInf => "-Infinity"
  | Fin z =>
      match F z with
      | Fin z' =>
          if z' =? 0 then "0"
          else if z' <? 0 then "-" ++ positive_to_string (- z')
          else positive_to_string z'
      | PInf => "Infinity"
      | _ => "-Infinity"
      end
  end.

Fixpoint join (sep : string) (l : list string) : string :=
  match l with
  | [] => ""
  | [a] => a
  | a :: l' => a ++ sep ++ join sep l'
  end.

(** [s.includes(t)]: [t] occurs in [s]. *)
Definition includes (s t : string) : Prop :=
  exists pre post, s = pre ++ t ++ post.

End JSString.
Export JSString.

(** ** JavaScript values *)

Module JSValue.

#[warnings="-register-all"] Inductive val : Type :=
| VUndefined
| VNull
| VBool (b : bool)
| VNum (n : number)
| VStr (s : string)
| VArr (l : list val)
| VObj (props : list (string * val)).

(** [ToString]: what [parseInt] and a template literal apply to their
    argument. An array joins its elements with commas, a plain object is
    ["[object Object]"]. *)
Fixpoint to_string (v : val) : string :=
  match v with
  | VUndefined => "undefined"
  | VNull => "null"
  | VBool true => "true"
  | VBool false => "false"
  | VNum n => number_to_string n
  | VStr s => s
  | VArr l =>
      join ","
        (map (fun x => match x with
                       | VUndefined | VNull => ""
                       | _ => to_string x
                       end) l)
  | VObj _ => "[object Object]"
  end.

(** [ToBoolean] *)
Definition truthy (v : val) : bool :=
  match v with
  | VUndefined | VNull => false
  | VBool b => b
  | VNum NaN => false
  | VNum (Fin z) => negb (z =? 0)
  | VNum _ => true
  | VStr s => negb (String.eqb s "")
  | VArr _ | VObj _ => true
  end.

(** [a || b] *)
Definition or_else (a b : val) : val := if truthy a then a else b.

(** [v === s] for a string literal [s]. *)
Definition strict_eq_string (v : val) (s : string) : bool :=
  match v with
  | VStr s' => String.eqb s' s
  | _ => false
  end.

(** A parameter with a default value takes it when the argument is
    [undefined]. *)
Definition with_default (arg dflt : val) : val :=
  match arg with VUndefined => dflt | _ => arg end.

(** [parseInt(v, 10)] *)
Definition parseInt (v : val) : number := parseInt_string (to_string v).

(** *** Objects: properties in insertion order *)

Fixpoint obj_get (k : string) (props : list (string * val)) : val :=
  match props with
  | [] => VUndefined
  | (k', v) :: rest => if String.eqb k' k then v else obj_get k rest
  end.

(** Writing a property keeps the position of an existing key and appends a
    new one. *)
Fixpoint obj_set (k : string) (v : val) (props : list (string * val))
  : list (string * val) :=
  match props with
  | [] => [(k, v)]
  | (k', v') :: rest =>
      if String.eqb k' k then (k', v) :: rest else (k', v') :: obj_set k v rest
  end.

Fixpoint indexed (i : nat) (l : list val) : list (string * val) :=
  match l with
  | [] => []
  | x :: l' => (dec (Z.of_nat i), x) :: indexed (S i) l'
  end.

Fixpoint chars (s : string) : list val :=
  match s with
  | EmptyString => []
  | String c s' => VStr (String c EmptyString) :: chars s'
  end.

(** The own enumerable properties a spread [...v] copies. *)
Definition own_props (v : val) : list (string * val) :=
  match v with
  | VObj props => props
  | VArr l => indexed 0 l
  | VStr s => indexed 0 (chars s)
  | _ => []
  end.

(** [{ ...base, ...v }] *)
Definition spread (base : list (string * val)) (v : val) : list (string * val) :=
  fold_left (fun o kv => obj_set kv.1 kv.2 o) (own_props v) base.

(** [o.k] for an object [o]. *)
Definition get (v : val) (k : string) : val :=
  match v with
  | VObj props => obj_get k props
  | _ => VUndefined
  end.

Definition keys (props : list (string * val)) : list string := map fst props.

End JSValue.
Export JSValue.

(** ** The response envelope builder *)

Module ApiResponse.

(** [success(data, message = 'Success', meta = {})] *)
Definition success (data message meta : val) : val :=
  let message := with_default message (VStr "Success") in
  let meta := with_default meta (VObj []) in
  VObj (spread [("success", VBool true); ("message", message); ("data", data)] meta).

(** [error(message = 'Internal server error', status = 500, details = {})] *)
Definition error (message status details : val) : val :=
  let message := with_default message (VStr "Internal server error") in
  let status := with_default status (VNum 500) in
  let details := with_default details (VObj []) in
  VObj (spread [("success", VBool false); ("message", message); ("status", status)]
          details).

End ApiResponse.

(** ** Completions: a value returned or a failure thrown *)

(** The failures this controller meets are error objects: the [Error] of
    [validateId], the errors of the persistence collaborator (which may carry
    a [code]), a [TypeError] of the runtime. A property an error does not
    have reads as [undefined]. *)
Record Failure : Type := mkFailure {
  err_name : string;
  err_message : val;
  err_stack : val;
  err_status : val;
  err_code : val
}.

(** [new Error(msg)] *)
Definition new_Error (msg : string) : Failure :=
  {| err_name := "Error"; err_message := VStr msg;
     err_stack := VStr ("Error: " +:+ msg);
     err_status := VUndefined; err_code := VUndefined |}.

Definition new_TypeError (msg : string) : Failure :=
  {| err_name := "TypeError"; err_message := VStr msg;
     err_stack := VStr ("TypeError: " +:+ msg);
     err_status := VUndefined; err_code := VUndefined |}.

Inductive Completion (A : Type) : Type :=
| Return (a : A)
| Throw (e : Failure).
Arguments Return {A} a.
Arguments Throw {A} e.

(** ** The validation helpers *)

Module ValidationHelpers.

Record Pagination : Type := { page : number; limit : number; skip : number }.

(** [validatePagination(page = 1, limit = 10)] *)
Definition validatePagination (page limit : val) : Pagination :=
  let page := with_default page (VNum 1) in
  let limit := with_default limit (VNum 10) in
  let parsedPage := JSNumber.max 1 (parseInt page) in
  let parsedLimit := JSNumber.min 100 (JSNumber.max 1 (parseInt limit)) in
  {| page := parsedPage;
     limit := parsedLimit;
     skip := mul (sub parsedPage 1) parsedLimit |}.

(** [validateId(id, entityName = 'ID')] *)
Definition validateId (id entityName : val) : Completion number :=
  let entityName := with_default entityName (VStr "ID") in
  let parsed := parseInt id in
  if isNaN parsed || le parsed 0 then
    Throw (new_Error ("Invalid " +:+ to_string entityName +:+ " provided"))
  else Return parsed.

End ValidationHelpers.
Import ValidationHelpers.

(** ** Requests, responses and the world a handler runs in *)

(** An entry of the cache's [Map]. *)
Record CacheItem : Type := { value : val; expires : number }.

(** The environment of the closure [res.locals.cache.set]: the store, the
    key and the time to live it was created with. *)
Record CacheSetter : Type := { setter_cache : nat; setter_key : string; setter_ttl : number }.

Record Request : Type := {
  path : string;
  method : string;
  params : gmap string val;
  query : gmap string val
}.

(** The response object: the status set by [res.status], the bodies written
    by [res.json] in order, and [res.locals.cache]. *)
Record Response : Type := {
  statusCode : val;
  sent : list val;
  locals_cache : option CacheSetter
}.

Definition fresh_response : Response :=
  {| statusCode := VNum 200; sent := []; locals_cache := None |}.

Record LogRecord : Type := { log_level : string; log_message : string; log_context : val }.

(** What a run can read and change: the response of the request at hand, the
    log of the observability collaborator, the cache stores allocated so far
    (a store is referred to by its index) and the clock read by [Date.now()]. *)
Record World : Type := {
  res : Response;
  logs : list LogRecord;
  stores : list (gmap string CacheItem);
  clock : Z
}.

(** [req.params.id], [req.query.page]: an absent property is [undefined]. *)
Definition prop (m : gmap string val) (k : string) : val := default VUndefined (m !! k).

Module Async.

(** An asynchronous function, run to its completion: from a world to the
    world it leaves and the value it returns or the failure it rejects with. *)
Definition M (A : Type) : Type := World -> World * Completion A.

Definition ret {A} (a : A) : M A := fun w => (w, Return a).

Definition throw {A} (e : Failure) : M A := fun w => (w, Throw e).

Definition bind {A B} (m : M A) (k : A -> M B) : M B :=
  fun w =>
    match m w with
    | (w', Return a) => k a w'
    | (w', Throw e) => (w', Throw e)
    end.

(** [try { m } catch (error) { h error }] *)
Definition try_catch {A} (m : M A) (h : Failure -> M A) : M A :=
  fun w =>
    match m w with
    | (w', Return a) => (w', Return a)
    | (w', Throw e) => h e w'
    end.

(** A synchronous computation that returns or throws, and [await] of a
    promise that is already settled. *)
Definition lift {A} (c : Completion A) : M A := fun w => (w, c).

End Async.
Import Async.

Declare Scope async_scope.
Delimit Scope async_scope with async.
Notation "x <- m ;; k" := (bind m (fun x => k))
  (at level 100, m at next level, right associativity) : async_scope.
Notation "m ;; k" := (bind m (fun _ => k))
  (at level 100, right associativity) : async_scope.
Local Open Scope async_scope.

Definition set_res (f : Response -> Response) : M unit :=
  fun w => ({| res := f (res w); logs := logs w; stores := stores w; clock := clock w |},
            Return tt).

(** [res.status(code)] *)
Definition res_status (code : val) : M unit :=
  set_res (fun r => {| statusCode := code; sent := sent r; locals_cache := locals_cache r |}).

(** [res.json(body)]; the transport accepts every write. *)
Definition res_json (body : val) : M unit :=
  set_res (fun r => {| statusCode := statusCode r; sent := (sent r ++ [body])%list;
                       locals_cache := locals_cache r |}).

(** [logger.error(message, context)] *)
Definition logger_error (message : string) (context : val) : M unit :=
  fun w => ({| res := res w;
               logs := (logs w ++ [{| log_level := "error"; log_message := message;
                                      log_context := context |}])%list;
               stores := stores w; clock := clock w |},
            Return tt).

(** [Date.now()] *)
Definition Date_now : M number := fun w => (w, Return (Fin (clock w))).

(** ** The request handler wrapper *)

(** [asyncHandler(handler)]; [name] is [handler.name]. *)
Definition asyncHandler (name : string) (handler : Request -> M unit)
  : Request -> M unit :=
  fun req =>
    try_catch (handler req)
      (fun error =>
         logger_error ("Error in " +:+ name +:+ ":")
           (VObj [("message", err_message error); ("stack", err_stack error);
                  ("path", VStr (path req)); ("method", VStr (method req))]) ;;
         let status :=
           or_else (err_status error)
             (if strict_eq_string (err_code error) "P2025" then VNum 404 else VNum 500) in
         let response :=
           ApiResponse.error
             (or_else (err_message error) (VStr "An unexpected error occurred"))
             status
             (VObj [("path", VStr (path req))]) in
         res_status (get response "status") ;;
         res_json response).

(** ** The persistence collaborator *)

(** The query interface the handlers call. A query takes its argument object
    and settles with rows (or a count) or rejects with a failure. When the
    two concurrent queries of the paginated list both reject,
    [count_settles_first] tells which rejection [Promise.all] sees first. *)
Record Prisma : Type := {
  waste_type_findMany : val -> Completion (list val);
  waste_findMany : val -> Completion (list val);
  waste_count : val -> Completion number;
  count_settles_first : bool
}.

(** [await Promise.all([p1, p2])] *)
Definition Promise_all {A B} (second_first : bool)
    (p1 : Completion A) (p2 : Completion B) : M (A * B) :=
  lift match p1, p2 with
       | Return a, Return b => Return (a, b)
       | Throw e, Return _ => Throw e
       | Return _, Throw e => Throw e
       | Throw e1, Throw e2 => Throw (if second_first then e2 else e1)
       end.

(** [v?.trim()]: [undefined] on [undefined] and [null], the trimmed string on
    a string, a [TypeError] on any other value, which has no [trim] method. *)
Definition optional_trim (what : string) (v : val) : Completion val :=
  match v with
  | VUndefined | VNull => Return VUndefined
  | VStr s => Return (VStr (trim s))
  | _ => Throw (new_TypeError (what +:+ "?.trim is not a function"))
  end.

(** [arr.length] *)
Definition length_of (l : list val) : val := VNum (Fin (Z.of_nat (length l))).

Definition WASTE_TYPE_SELECT : val :=
  VObj [("waste_type_id", VBool true); ("waste_type_name", VBool true);
        ("image", VBool true)].

Definition WASTE_SELECT : val :=
  VObj [("waste_id", VBool true); ("waste_name", VBool true); ("image", VBool true);
        ("description", VBool true); ("waste_type_id", VBool true)].

(** ** The endpoint handlers *)

Section Handlers.

Variable prisma : Prisma.

Definition getAllWasteTypes_args : val :=
  VObj [("select", WASTE_TYPE_SELECT);
        ("orderBy", VObj [("waste_type_name", VStr "asc")])].

(** The function handed to the wrapper. *)
Definition getAllWasteTypes_handler : Request -> M unit :=
  fun req =>
    wasteTypes <- lift (waste_type_findMany prisma getAllWasteTypes_args) ;;
    if negb (truthy (length_of wasteTypes)) then
      let response := ApiResponse.error (VStr "No waste types found.") (VNum 404) VUndefined in
      res_status (VNum 404) ;; res_json response
    else
      res_json (ApiResponse.success (VArr wasteTypes) VUndefined VUndefined).

Definition getAllWasteTypes : Request -> M unit :=
  asyncHandler "" getAllWasteTypes_handler.

Definition getWasteById_args (wasteTypeId : number) : val :=
  VObj [("where", VObj [("waste_type_id", VNum wasteTypeId)]);
        ("select", VObj (obj_set "waste_type" (VObj [("select", WASTE_TYPE_SELECT)])
                           (spread [] WASTE_SELECT)));
        ("orderBy", VObj [("waste_name", VStr "asc")])].

Definition getWasteById_handler : Request -> M unit :=
  fun req =>
    wasteTypeId <- lift (validateId (prop (params req) "id") (VStr "Waste Type")) ;;
    waste <- lift (waste_findMany prisma (getWasteById_args wasteTypeId)) ;;
    if negb (truthy (length_of waste)) then
      let response :=
        ApiResponse.error (VStr "No waste found for the given ID.") (VNum 404) VUndefined in
      res_status (VNum 404) ;; res_json response
    else
      res_json (ApiResponse.success (VArr waste) VUndefined VUndefined).

Definition getWasteById : Request -> M unit :=
  asyncHandler "" getWasteById_handler.

(** The [where] clause of the paginated list: built only for a search term
    that is not empty. *)
Definition getWasteLists_where (search : val) : val :=
  if truthy search then
    VObj [("waste_name", VObj [("contains", search); ("mode", VStr "insensitive")])]
  else VUndefined.

Definition getWasteLists_args (where_ : val) (pg : Pagination) : val :=
  VObj [("where", where_); ("skip", VNum (skip pg)); ("take", VNum (limit pg));
        ("select", WASTE_SELECT); ("orderBy", VObj [("waste_name", VStr "asc")])].

Definition getWasteLists_handler : Request -> M unit :=
  fun req =>
    let pg := validatePagination (prop (query req) "page") (prop (query req) "limit") in
    search <- lift (optional_trim "req.query.search" (prop (query req) "search")) ;;
    let where_ := getWasteLists_where search in
    r <- Promise_all (count_settles_first prisma)
           (waste_findMany prisma (getWasteLists_args where_ pg))
           (waste_count prisma (VObj [("where", where_)])) ;;
    let '(wasteData, totalWasteCount) := r in
    let pagination :=
      VObj [("total", VNum totalWasteCount); ("page", VNum (page pg));
            ("limit", VNum (limit pg));
            ("totalPages", VNum (ceil_div totalWasteCount (limit pg)))] in
    res_json (ApiResponse.success
                (VObj [("items", VArr wasteData); ("pagination", pagination)])
                VUndefined VUndefined).

Definition getWasteLists : Request -> M unit :=
  asyncHandler "" getWasteLists_handler.

Definition findWasteName_args (name : val) : val :=
  VObj [("where", VObj [("waste_name",
                         VObj [("contains", name); ("mode", VStr "insensitive")])]);
        ("select", WASTE_SELECT); ("orderBy", VObj [("waste_name", VStr "asc")]);
        ("take", VNum 50)].

Definition findWasteName_handler : Request -> M unit :=
  fun req =>
    name <- lift (optional_trim "req.query.name" (prop (query req) "name")) ;;
    if negb (truthy name) then
      let response := ApiResponse.error (VStr "Waste name is required.") (VNum 400) VUndefined in
      res_status (VNum 400) ;; res_json response
    else
      waste <- lift (waste_findMany prisma (findWasteName_args name)) ;;
      if negb (truthy (length_of waste)) then
        let response :=
          ApiResponse.error (VStr "No waste found with the given name.") (VNum 404) VUndefined in
        res_status (VNum 404) ;; res_json response
      else
        res_json (ApiResponse.success (VArr waste) VUndefined VUndefined).

Definition findWasteName : Request -> M unit :=
  asyncHandler "" findWasteName_handler.

End Handlers.

(** ** The cache *)

(** A cache refers to its [Map] by the index of the store in the world. An
    index comes from [createCache] only, so it is always in range; a lookup
    out of range reads as the empty map. *)
Definition the_store (cache : nat) (w : World) : gmap string CacheItem :=
  default ∅ (stores w !! cache).

(** [createCache()]: a new, empty [Map]. *)
Definition createCache : M nat :=
  fun w => ({| res := res w; logs := logs w;
               stores := (stores w ++ [∅])%list; clock := clock w |},
            Return (length (stores w))).

(** [cache.get(key)] of the [Map]: the entry, if any. *)
Definition Map_get (cache : nat) (key : string) : M (option CacheItem) :=
  fun w => (w, Return (the_store cache w !! key)).

(** [cache.set(key, item)] of the [Map] *)
Definition Map_set (cache : nat) (key : string) (item : CacheItem) : M unit :=
  fun w => ({| res := res w; logs := logs w;
               stores := <[cache := <[key := item]> (the_store cache w)]> (stores w);
               clock := clock w |},
            Return tt).

(** [cache.delete(key)] of the [Map] *)
Definition Map_delete (cache : nat) (key : string) : M unit :=
  fun w => ({| res := res w; logs := logs w;
               stores := <[cache := delete key (the_store cache w)]> (stores w);
               clock := clock w |},
            Return tt).

(** [get: async (key) => ...] *)
Definition cache_get (cache : nat) (key : string) : M val :=
  item <- Map_get cache key ;;
  match item with
  | None => ret VNull
  | Some item =>
      now <- Date_now ;;
      ret (if gt (expires item) now then value item else VNull)
  end.

(** [set: async (key, value, ttl = 3600) => ...] *)
Definition cache_set (cache : nat) (key : string) (v : val) (ttl : option number) : M unit :=
  let ttl := default (Fin 3600) ttl in
  now <- Date_now ;;
  Map_set cache key {| value := v; expires := add now (mul ttl 1000) |}.

(** [clear: async (key) => ...] *)
Definition cache_clear (cache : nat) (key : string) : M unit :=
  Map_delete cache key.

(** ** The cache decorator *)

(** The first argument of [withCache]: a function of the request or a
    literal key. *)
Inductive CacheKey : Type :=
| KeyFunction (f : Request -> Completion string)
| KeyLiteral (k : string).

Definition set_locals_cache (s : CacheSetter) : M unit :=
  set_res (fun r => {| statusCode := statusCode r; sent := sent r; locals_cache := Some s |}).

(** [typeof getCacheKey === 'function' ? getCacheKey(req) : getCacheKey] *)
Definition cache_key (getCacheKey : CacheKey) (req : Request) : Completion string :=
  match getCacheKey with
  | KeyFunction f => f req
  | KeyLiteral k => Return k
  end.

(** The [try] block of the middleware, for the store [cache]. *)
Definition withCache_try (cache : nat) (getCacheKey : CacheKey) (ttl : number)
    (req : Request) (next : option Failure -> M unit) : M unit :=
  cacheKey <- lift (cache_key getCacheKey req) ;;
  cached <- cache_get cache cacheKey ;;
  if truthy cached then res_json cached
  else
    set_locals_cache {| setter_cache := cache; setter_key := cacheKey; setter_ttl := ttl |} ;;
    next None.

(** [withCache(getCacheKey, ttl = 3600)], the middleware [(req, res, next)]. *)
Definition withCache (getCacheKey : CacheKey) (ttl : option number)
    (req : Request) (next : option Failure -> M unit) : M unit :=
  let ttl := default (Fin 3600) ttl in
  cache <- createCache ;;
  try_catch (withCache_try cache getCacheKey ttl req next)
    (fun error => next (Some error)).

(** [res.locals.cache.set(data)], as the next stage calls it. *)
Definition locals_cache_set (data : val) : M unit :=
  fun w =>
    match locals_cache (res w) with
    | Some s => cache_set (setter_cache s) (setter_key s) data (Some (setter_ttl s)) w
    | None =>
        (w, Throw (new_TypeError "Cannot read properties of undefined (reading 'set')"))
    end.

(** ** An in-memory persistence collaborator, to run scenarios on *)

(** The handlers are stated for any collaborator; this one, over two lists of
    rows, stands in for the database where a scenario needs a concrete one. *)
Module Table.

Definition lower_char (c : ascii) : ascii :=
  let n := N_of_ascii c in
  if ((65 <=? n) && (n <=? 90))%N then ascii_of_N (n + 32) else c.

Fixpoint lower (s : string) : string :=
  match s with
  | EmptyString => EmptyString
  | String c s' => String (lower_char c) (lower s')
  end.

Fixpoint containsb (s t : string) : bool :=
  String.prefix t s ||
  match s with
  | EmptyString => false
  | String _ s' => containsb s' t
  end.

(** Does a row satisfy a [where] clause of the two kinds the handlers build? *)
Definition matches (where_ row : val) : bool :=
  match get where_ "waste_name" with
  | VObj c => containsb (lower (to_string (get row "waste_name")))
                (lower (to_string (obj_get "contains" c)))
  | _ => true
  end &&
  match get where_ "waste_type_id", get row "waste_type_id" with
  | VNum n, VNum m => bool_decide (n = m)
  | VNum _, _ => false
  | _, _ => true
  end.

Definition invalid_argument (k : string) : Failure :=
  {| err_name := "PrismaClientValidationError";
     err_message := VStr ("Invalid value provided for " +:+ k);
     err_stack := VUndefined; err_status := VUndefined; err_code := VUndefined |}.

(** [skip] or [take] of a query: absent, or a non-negative integer; this
    collaborator rejects anything else. *)
Definition row_count (v : val) : option (option nat) :=
  match v with
  | VUndefined => Some None
  | VNum (Fin n) => if 0 <=? n then Some (Some (Z.to_nat n)) else None
  | _ => None
  end.

Definition window (args : val) (rows : list val) : Completion (list val) :=
  match row_count (get args "skip"), row_count (get args "take") with
  | Some s, Some t =>
      let rows := match s with Some n => drop n rows | None => rows end in
      Return match t with Some n => take n rows | None => rows end
  | Some _, None => Throw (invalid_argument "take")
  | None, _ => Throw (invalid_argument "skip")
  end.

(** The collaborator over two tables whose rows are kept in name order. *)
Definition db (waste_types waste : list val) : Prisma :=
  {| waste_type_findMany := fun args => window args waste_types;
     waste_findMany := fun args =>
       window args (filter (fun row => matches (get args "where") row = true) waste);
     waste_count := fun args =>
       Return (Fin (Z.of_nat (length
         (filter (fun row => matches (get args "where") row = true) waste))));
     count_settles_first := false |}.

Definition waste_row (id : Z) (name : string) (type : Z) : val :=
  VObj [("waste_id", VNum id); ("waste_name", VStr name); ("image", VNull);
        ("description", VNull); ("waste_type_id", VNum type)].

(** [n] rows named ["item"]. *)
Definition rows (n : nat) : list val :=
  map (fun i => waste_row (Z.of_nat i) "item" 1) (seq 1 n).

End Table.

Definition request (path : string) (params query : list (string * val)) : Request :=
  {| path := path; method := "GET";
     params := list_to_map params; query := list_to_map query |}.

Definition world0 : World :=
  {| res := fresh_response; logs := []; stores := []; clock := 0 |}.

(** The response a handler leaves when run on a fresh world. *)
Definition respond (h : Request -> M unit) (req : Request) : val * list val :=
  let w := (h req world0).1 in (statusCode (res w), sent (res w)).

(** The failure of the persistence collaborator for a record it does not find. *)
Definition record_not_found : Failure :=
  {| err_name := "PrismaClientKnownRequestError";
     err_message := VStr "Record to update not found.";
     err_stack := VUndefined; err_status := VUndefined; err_code := VStr "P2025" |}.

Definition some_waste : list val :=
  [Table.waste_row 1 "Car battery" 2; Table.waste_row 2 "Laptop" 1;
   Table.waste_row 3 "Phone battery" 2].

(** A world whose store 0 holds the value 0 for ["k"], to expire at 1000. *)
Definition world_with_zero : World :=
  {| res := fresh_response; logs := [];
     stores := [ {[ "k" := {| value := VNum 0; expires := Fin 1000 |} ]} ];
     clock := 0 |}.

Definition handled : option Failure -> M unit := fun _ => res_json (VStr "handled").

Module TwoRequests.

Definition req : Request := request "/api/waste" [] [].

Definition data : val := ApiResponse.success (VArr some_waste) VUndefined VUndefined.

Definition middleware : (option Failure -> M unit) -> M unit :=
  withCache (KeyLiteral "waste:list") None req.

(** The first request, at time 0: the next stage responds and populates the
    cache through [res.locals.cache.set]. *)
Definition after_first : World :=
  (middleware (fun _ => res_json data ;; locals_cache_set data) world0).1.

(** The second request, one second later, with its own response object. *)
Definition before_second : World :=
  {| res := fresh_response; logs := logs after_first;
     stores := stores after_first; clock := 1000 |}.

Definition after_second : World := (middleware handled before_second).1.

End TwoRequests.

(** ** What the properties are stated with *)

(** The envelope the wrapper renders for a failure. *)
Definition rendered (req : Request) (e : Failure) (status : val) : val :=
  VObj [("success", VBool false);
        ("message", or_else (err_message e) (VStr "An unexpected error occurred"));
        ("status", status);
        ("path", VStr (path req))].

Definition has_key (k : string) (props : list (string * val)) : bool :=
  existsb (String.eqb k) (keys props).

(** The two shapes as the specification gives them: a success envelope with
    a message and either [data] or [items] and [pagination], or an error
    envelope with a message, a status and a path. *)
Definition specified_envelope (body : val) : bool :=
  match body with
  | VObj props =>
      match obj_get "success" props with
      | VBool true =>
          has_key "message" props &&
          (has_key "data" props || (has_key "items" props && has_key "pagination" props))
      | VBool false =>
          has_key "message" props && has_key "status" props && has_key "path" props
      | _ => false
      end
  | _ => false
  end.

(** The shapes the handlers write: [{success: true, message, data}],
    [{success: false, message, status}], and the latter with the [path] that
    the wrapper adds. *)
Definition envelope (body : val) : bool :=
  match body with
  | VObj props =>
      match obj_get "success" props with
      | VBool true => bool_decide (keys props = ["success"; "message"; "data"])
      | VBool false =>
          bool_decide (keys props = ["success"; "message"; "status"]) ||
          bool_decide (keys props = ["success"; "message"; "status"; "path"])
      | _ => false
      end
  | _ => false
  end.

(** A handler that, whenever it returns, has written one envelope, and
    whenever it throws, has written nothing. *)
Definition writes_one_envelope (h : Request -> M unit) : Prop :=
  forall req w,
    match h req w with
    | (w', Return _) =>
        exists env, sent (res w') = (sent (res w) ++ [env])%list /\ envelope env = true
    | (w', Throw _) => sent (res w') = sent (res w)
    end.

(** The collaborator returns no more rows than the [take] of the query. *)
Definition honours_take (prisma : Prisma) : Prop :=
  forall args rows n,
    waste_findMany prisma args = Return rows ->
    get args "take" = VNum (Fin n) ->
    Z.of_nat (length rows) <= n.

(** The body of a successful paginated list. *)
Definition list_envelope (rows : list val) (total : number) (pg : Pagination) : val :=
  VObj [("success", VBool true); ("message", VStr "Success");
        ("data",
         VObj [("items", VArr rows);
               ("pagination",
                VObj [("total", VNum total); ("page", VNum (page pg));
                      ("limit", VNum (limit pg));
                      ("totalPages", VNum (ceil_div total (limit pg)))])])].

(** The value the middleware's lookup sees for [key] in the store [cache]. *)
Definition cached_value (cache : nat) (key : string) (w : World) : val :=
  match the_store cache w !! key with
  | Some item => if lt (Fin (clock w)) (expires item) then value item else VNull
  | None => VNull
  end.

(** The world in which the next stage starts after a miss. *)
Definition after_miss (cache : nat) (key : string) (ttl : number) (w : World) : World :=
  (set_locals_cache {| setter_cache := cache; setter_key := key; setter_ttl := ttl |} w).1.

(** The status the wrapper gives a failure. *)
Definition failure_status (e : Failure) : val :=
  or_else (err_status e)
    (if strict_eq_string (err_code e) "P2025" then VNum 404 else VNum 500).

(** The record the wrapper logs for a failure. *)
Definition failure_log (name : string) (req : Request) (e : Failure) : LogRecord :=
  {| log_level := "error";
     log_message := "Error in " +:+ name +:+ ":";
     log_context :=
       VObj [("message", err_message e); ("stack", err_stack e);
             ("path", VStr (path req)); ("method", VStr (method req))] |}.

(** The status of a response agrees with the body [env] written from the
    world [w] to the world [w']: an error envelope carries the status that was
    set, and a success envelope leaves the status as it was. *)
Definition status_agrees (w w' : World) (env : val) : Prop :=
  match get env "success" with
  | VBool false => get env "status" = statusCode (res w')
  | _ => statusCode (res w') = statusCode (res w)
  end.

(** The request without the query parameter [k]. *)
Definition without_query (k : string) (req : Request) : Request :=
  {| path := path req; method := method req; params := params req;
     query := delete k (query req) |}.

(** Is the value a string, or absent? These are the values [?.trim()]
    accepts. *)
Definition trimmable (v : val) : bool :=
  match v with
  | VUndefined | VNull | VStr _ => true
  | _ => false
  end.

(** A handler that, whenever it returns, has written one body whose status
    agrees with the response, and whenever it throws, has written nothing. *)
Definition handler_agrees (h : Request -> M unit) : Prop :=
  forall req w,
    match h req w with
    | (w', Return _) =>
        exists env, sent (res w') = (sent (res w) ++ [env])%list /\ status_agrees w w' env
    | (w', Throw _) => sent (res w') = sent (res w)
    end.

(** A world with one empty store, at time 0. *)
Definition world_with_store : World := (createCache world0).1.

(** The world [w] at the time [t]. *)
Definition at_time (t : Z) (w : World) : World :=
  {| res := res w; logs := logs w; stores := stores w; clock := t |}.

(** A collaborator whose every query rejects with the failure [e]. *)
Definition rejecting (e : Failure) : Prisma :=
  {| waste_type_findMany := fun _ => Throw e;
     waste_findMany := fun _ => Throw e;
     waste_count := fun _ => Throw e;
     count_settles_first := false |}.

(** The failure of a collaborator that cannot reach its database. *)
Definition unreachable_database : Failure :=
  {| err_name := "PrismaClientInitializationError";
     err_message := VStr "Can't reach database server";
     err_stack := VUndefined; err_status := VUndefined; err_code := VUndefined |}.

(** The three answers the specification gives the name search: the 400
    envelope "Waste name is required.", the 404 envelope "No waste found with
    the given name.", or a success envelope with at most 50 results. *)
Definition specified_name_search (body : val) : bool :=
  match get body "success" with
  | VBool false =>
      match get body "message", get body "status" with
      | VStr m, VNum (Fin 400) => String.eqb m "Waste name is required."
      | VStr m, VNum (Fin 404) => String.eqb m "No waste found with the given name."
      | _, _ => false
      end
  | VBool true =>
      match get body "data" with
      | VArr rows => Z.of_nat (length rows) <=? 50
      | _ => false
      end
  | _ => false
  end.

(** The search term of a name parameter that is absent or a string. *)
Definition search_term (name : val) : string :=
  match name with
  | VStr s => trim s
  | _ => ""
  end.

(** * Properties *)

(** ** Numbers and strings *)

Example parseInt_string_examples :
  parseInt_string "42" = Fin 42 /\ parseInt_string "  -7px" = Fin (-7) /\
  parseInt_string "abc" = NaN /\ parseInt_string "" = NaN /\
  parseInt_string "3.9" = Fin 3 /\ parseInt_string "+08" = Fin 8 /\
  parseInt_string "9007199254740993" = Fin 9007199254740992 /\
  parseInt_string "1e3" = Fin 1.
Proof. repeat split; reflexivity. Qed.

Example number_to_string_examples :
  number_to_string (Fin (-1)) = "-1" /\
  number_to_string (Fin 0) = "0" /\
  number_to_string (Fin (2 ^ 69)) = "590295810358705700000" /\
  number_to_string (Fin (10 ^ 21)) = "1e+21" /\
  number_to_string (Fin (2 ^ 70)) = "1.1805916207174113e+21".
Proof. repeat split; vm_compute; reflexivity. Qed.

(** ** Validation helpers *)

Example validatePagination_examples :
  validatePagination VUndefined VUndefined = {| page := 1; limit := 10; skip := 0 |} /\
  validatePagination (VStr "2") (VStr "50") = {| page := 2; limit := 50; skip := 50 |} /\
  validatePagination (VStr "-3") (VStr "1000") = {| page := 1; limit := 100; skip := 0 |} /\
  validatePagination (VStr "0") (VStr "0") = {| page := 1; limit := 1; skip := 0 |} /\
  validatePagination (VStr "abc") (VStr "10") = {| page := NaN; limit := 10; skip := NaN |}.
Proof. repeat split; vm_compute; reflexivity. Qed.

(** Integers below [2^53] in absolute value are doubles. *)
Lemma F_exact (z : Z) : Z.abs z < 2 ^ 53 -> F z = Fin z.
Proof.
  intros Hz. unfold F. destruct (Z.ltb_spec (Z.abs z) (2 ^ 53)); [reflexivity | lia].
Qed.

Lemma max_1_Fin (z : Z) : JSNumber.max 1 (Fin z) = Fin (Z.max 1 z).
Proof.
  unfold JSNumber.max, lt. destruct (Z.ltb_spec 1 z); f_equal; lia.
Qed.

Lemma min_100_Fin (z : Z) : JSNumber.min 100 (Fin z) = Fin (Z.min 100 z).
Proof.
  unfold JSNumber.min, lt. destruct (Z.ltb_spec z 100); f_equal; lia.
Qed.

(** A limit that parses as a number is clamped to an integer of [1, 100]. *)
Lemma validatePagination_limit_range (p l : val) :
  parseInt (with_default l (VNum 10)) <> NaN ->
  exists n, limit (validatePagination p l) = Fin n /\ 1 <= n <= 100.
Proof.
  intros Hl. unfold validatePagination. cbn [limit page skip].
  destruct (parseInt (with_default l (VNum 10))) as [| z | |]; [done | | |].
  - rewrite max_1_Fin, min_100_Fin. eexists; split; [reflexivity | lia].
  - exists 100. split; [reflexivity | lia].
  - exists 1. split; [reflexivity | lia].
Qed.

(** A page that parses as a number is at least 1. *)
Lemma validatePagination_page_min (p l : val) :
  parseInt (with_default p (VNum 1)) <> NaN ->
  le 1 (page (validatePagination p l)) = true.
Proof.
  intros Hp. unfold validatePagination. cbn [limit page skip].
  destruct (parseInt (with_default p (VNum 1))) as [| z | |]; [done | | |].
  - rewrite max_1_Fin. simpl. apply Z.leb_le. lia.
  - reflexivity.
  - reflexivity.
Qed.

(** The skip is computed from the clamped page and limit. *)
Lemma validatePagination_skip (p l : val) :
  let pg := validatePagination p l in
  skip pg = mul (sub (page pg) 1) (limit pg).
Proof. reflexivity. Qed.

(** [Math.max(1, NaN)] is NaN: a page or a limit that does not parse is not
    clamped. *)
Lemma validatePagination_page_NaN (p l : val) :
  parseInt (with_default p (VNum 1)) = NaN ->
  page (validatePagination p l) = NaN /\ skip (validatePagination p l) = NaN.
Proof.
  intros Hp. unfold validatePagination. cbn [limit page skip]. rewrite Hp. split; reflexivity.
Qed.

Lemma validatePagination_limit_NaN (p l : val) :
  parseInt (with_default l (VNum 10)) = NaN ->
  limit (validatePagination p l) = NaN.
Proof.
  intros Hl. unfold validatePagination. cbn [limit page skip]. rewrite Hl. reflexivity.
Qed.

(** C1, at a page that is not numeric: [validatePagination("abc", "10")]
    returns the page NaN, which is not an integer and not at least 1, and the
    skip NaN. *)
Theorem validatePagination_non_numeric :
  let pg := validatePagination (VStr "abc") (VStr "10") in
  pg = {| page := NaN; limit := Fin 10; skip := NaN |} /\
  isInteger (page pg) = false /\
  le 1 (page pg) = false.
Proof. vm_compute. repeat split. Qed.

(** An overlong digit string overflows to [Infinity], which is not an
    integer either. *)
Example validatePagination_oversized :
  validatePagination (VStr ("1" +:+ zeros 400)) (VStr "5000")
  = {| page := PInf; limit := Fin 100; skip := PInf |}.
Proof. vm_compute. reflexivity. Qed.

Lemma includes_middle (pre t post : string) : includes (pre +:+ t +:+ post) t.
Proof. exists pre, post. reflexivity. Qed.

(** C8: [validateId] throws, with a message that includes the entity name,
    exactly when the identifier parsed as an integer is NaN or at most 0, and
    returns the parsed integer otherwise; ["abc"], [-1] and [0] are rejected
    and ["42"] gives 42. *)
Theorem validateId_spec :
  (forall id entityName : val,
      let parsed := parseInt id in
      let name := to_string (with_default entityName (VStr "ID")) in
      if isNaN parsed || le parsed 0 then
        exists e m, validateId id entityName = Throw e /\
                    err_message e = VStr m /\ includes m name
      else validateId id entityName = Return parsed) /\
  (exists e, validateId (VStr "abc") VUndefined = Throw e) /\
  (exists e, validateId (VNum (-1)) VUndefined = Throw e) /\
  (exists e, validateId (VNum 0) VUndefined = Throw e) /\
  validateId (VStr "42") VUndefined = Return (Fin 42).
Proof.
  split; [| repeat split; try (eexists; vm_compute; reflexivity); reflexivity].
  intros id entityName parsed name. unfold validateId. fold parsed. fold name.
  destruct (isNaN parsed || le parsed 0).
  - eexists _, _. split; [reflexivity |]. split; [reflexivity |].
    apply includes_middle.
  - reflexivity.
Qed.

(** ** The request handler wrapper *)

Lemma with_default_or_else (a b d : val) :
  b <> VUndefined -> with_default (or_else a b) d = or_else a b.
Proof.
  intros Hb. unfold or_else. destruct (truthy a) eqn:Ha.
  - destruct a; try reflexivity. discriminate.
  - destruct b; try reflexivity. congruence.
Qed.

Lemma strict_eq_string_true (v : val) (s : string) :
  strict_eq_string v s = true <-> v = VStr s.
Proof.
  destruct v; simpl; try (split; [discriminate | intros H; discriminate]).
  rewrite String.eqb_eq. split; [intros -> | intros [= ->]]; reflexivity.
Qed.

(** What the wrapper does with a failure, in one equation. *)
Lemma asyncHandler_throw name handler req w w1 e :
  handler req w = (w1, Throw e) ->
  let status :=
    or_else (err_status e)
      (if strict_eq_string (err_code e) "P2025" then VNum 404 else VNum 500) in
  exists w2,
    asyncHandler name handler req w = (w2, Return tt) /\
    statusCode (res w2) = status /\
    sent (res w2) = (sent (res w1) ++ [rendered req e status])%list /\
    stores w2 = stores w1.
Proof.
  intros Hh status. unfold asyncHandler, try_catch. rewrite Hh.
  unfold ApiResponse.error. fold status.
  assert (Hs : with_default status (VNum 500) = status).
  { apply with_default_or_else. destruct (strict_eq_string _ _); discriminate. }
  assert (Hm : with_default
                 (or_else (err_message e) (VStr "An unexpected error occurred"))
                 (VStr "Internal server error")
               = or_else (err_message e) (VStr "An unexpected error occurred")).
  { apply with_default_or_else. discriminate. }
  rewrite Hs, Hm. eexists. split; [reflexivity |]. repeat split.
Qed.

Lemma asyncHandler_return name handler req w w1 :
  handler req w = (w1, Return tt) ->
  asyncHandler name handler req w = (w1, Return tt).
Proof. intros Hh. unfold asyncHandler, try_catch. rewrite Hh. reflexivity. Qed.

(** C5: a failure thrown by the wrapped handler does not leave the wrapper,
    which returns normally after writing one error envelope; the status of
    that envelope and of the response is the failure's own status when it has
    one (a truthy [status], as [error.status || ...] tests it), else 404 for
    the code ["P2025"], else 500. *)
Theorem asyncHandler_catches name handler req w w1 e :
  handler req w = (w1, Throw e) ->
  exists w2 status,
    asyncHandler name handler req w = (w2, Return tt) /\
    statusCode (res w2) = status /\
    sent (res w2) = (sent (res w1) ++ [rendered req e status])%list /\
    get (rendered req e status) "status" = status /\
    (truthy (err_status e) = true -> status = err_status e) /\
    (truthy (err_status e) = false -> err_code e = VStr "P2025" -> status = VNum 404) /\
    (truthy (err_status e) = false -> err_code e <> VStr "P2025" -> status = VNum 500).
Proof.
  intros Hh.
  destruct (asyncHandler_throw name handler req w w1 e Hh) as (w2 & Hrun & Hst & Hsent & _).
  exists w2. eexists. split; [exact Hrun |]. split; [exact Hst |].
  split; [exact Hsent |]. split; [reflexivity |].
  unfold or_else. repeat split.
  - intros ->. reflexivity.
  - intros -> ->. reflexivity.
  - intros -> Hcode. destruct (strict_eq_string _ _) eqn:Heq; [| reflexivity].
    apply strict_eq_string_true in Heq. contradiction.
Qed.

Lemma asyncHandler_catches_witness :
  exists w2,
    asyncHandler "h" (fun _ => throw record_not_found) (request "/api/waste" [] []) world0
    = (w2, Return tt) /\
    statusCode (res w2) = VNum 404.
Proof.
  destruct (asyncHandler_catches "h" (fun _ => throw record_not_found)
              (request "/api/waste" [] []) world0 world0 record_not_found eq_refl)
    as (w2 & status & Hrun & Hst & _ & _ & _ & H404 & _).
  exists w2. split; [exact Hrun |]. rewrite Hst. apply H404; reflexivity.
Defined.

(** C2, on the code: a path identifier that [validateId] rejects makes the
    waste-by-type-id handler answer with status 500, since the [Error] thrown
    declares no status. *)
Theorem getWasteById_invalid_id prisma req w :
  (let parsed := parseInt (prop (params req) "id") in
   isNaN parsed || le parsed 0 = true) ->
  exists w',
    getWasteById prisma req w = (w', Return tt) /\
    statusCode (res w') = VNum 500 /\
    sent (res w') =
      (sent (res w) ++
       [VObj [("success", VBool false); ("message", VStr "Invalid Waste Type provided");
              ("status", VNum 500); ("path", VStr (path req))]])%list.
Proof.
  intros Hbad. unfold getWasteById.
  assert (Hh : getWasteById_handler prisma req w
               = (w, Throw (new_Error "Invalid Waste Type provided"))).
  { unfold getWasteById_handler, bind, lift, validateId. cbv zeta in Hbad. rewrite Hbad. reflexivity. }
  destruct (asyncHandler_throw "" _ req w w _ Hh) as (w' & Hrun & Hst & Hsent & _).
  exists w'. split; [exact Hrun |]. split; [exact Hst | exact Hsent].
Qed.

Lemma getWasteById_invalid_id_witness :
  exists w',
    getWasteById (Table.db [] []) (request "/api/waste/abc" [("id", VStr "abc")] []) world0
    = (w', Return tt) /\
    statusCode (res w') = VNum 500.
Proof.
  destruct (getWasteById_invalid_id (Table.db [] [])
              (request "/api/waste/abc" [("id", VStr "abc")] []) world0 eq_refl)
    as (w' & Hrun & Hst & _).
  exists w'. split; [exact Hrun | exact Hst].
Defined.

(** ** Response envelopes *)

Lemma asyncHandler_one_envelope name h :
  writes_one_envelope h ->
  forall req w, exists w' env,
    asyncHandler name h req w = (w', Return tt) /\
    sent (res w') = (sent (res w) ++ [env])%list /\
    envelope env = true.
Proof.
  intros Hh req w. specialize (Hh req w).
  destruct (h req w) as [w1 [[] | e]] eqn:Hrun.
  - destruct Hh as (env & Hsent & Henv).
    exists w1, env. split; [| split]; [| exact Hsent | exact Henv].
    apply asyncHandler_return. exact Hrun.
  - destruct (asyncHandler_throw name h req w w1 e Hrun) as (w2 & Hrun2 & _ & Hsent & _).
    eexists w2, _. split; [exact Hrun2 |]. split.
    + rewrite Hsent, Hh. reflexivity.
    + reflexivity.
Qed.

(** [!rows.length] *)
Lemma not_length_of (l : list val) :
  negb (truthy (length_of l)) = match l with [] => true | _ :: _ => false end.
Proof.
  destruct l as [| x l]; [reflexivity |].
  unfold length_of, truthy. rewrite negb_involutive. apply Z.eqb_neq.
  rewrite length_cons. lia.
Qed.

Ltac one_envelope := simpl; first [reflexivity | eexists; split; reflexivity].

Lemma getAllWasteTypes_handler_envelope prisma :
  writes_one_envelope (getAllWasteTypes_handler prisma).
Proof.
  intros req w. unfold getAllWasteTypes_handler, bind, lift.
  destruct (waste_type_findMany prisma getAllWasteTypes_args) as [rows | e];
    [| reflexivity].
  rewrite not_length_of. destruct rows; one_envelope.
Qed.

Lemma getWasteById_handler_envelope prisma :
  writes_one_envelope (getWasteById_handler prisma).
Proof.
  intros req w. unfold getWasteById_handler, bind, lift.
  destruct (validateId _ _) as [wasteTypeId | e]; [| reflexivity].
  destruct (waste_findMany prisma _) as [rows | e]; [| reflexivity].
  rewrite not_length_of. destruct rows; one_envelope.
Qed.

Lemma getWasteLists_handler_envelope prisma :
  writes_one_envelope (getWasteLists_handler prisma).
Proof.
  intros req w. unfold getWasteLists_handler, bind, lift, Promise_all.
  destruct (optional_trim _ _) as [search | e]; [| reflexivity].
  destruct (waste_findMany prisma _) as [rows | e1],
           (waste_count prisma _) as [total | e2]; one_envelope.
Qed.

Lemma findWasteName_handler_envelope prisma :
  writes_one_envelope (findWasteName_handler prisma).
Proof.
  intros req w. unfold findWasteName_handler, bind, lift.
  destruct (optional_trim _ _) as [name | e]; [| reflexivity].
  destruct (truthy name); [| one_envelope].
  cbn [negb].
  destruct (waste_findMany prisma _) as [rows | e]; [| reflexivity].
  rewrite not_length_of. destruct rows; one_envelope.
Qed.

(** C4, as the code has it: whatever the request and whatever the
    persistence collaborator answers, each of the four handlers returns
    normally having written exactly one body, of shape
    [{success: true, message, data}], [{success: false, message, status}] or
    [{success: false, message, status, path}]. *)
Theorem handlers_one_envelope prisma req w :
  let one_envelope (h : Request -> M unit) :=
    exists w' env,
      h req w = (w', Return tt) /\
      sent (res w') = (sent (res w) ++ [env])%list /\
      envelope env = true in
  one_envelope (getAllWasteTypes prisma) /\
  one_envelope (getWasteById prisma) /\
  one_envelope (getWasteLists prisma) /\
  one_envelope (findWasteName prisma).
Proof.
  cbv zeta. repeat split; apply asyncHandler_one_envelope.
  - apply getAllWasteTypes_handler_envelope.
  - apply getWasteById_handler_envelope.
  - apply getWasteLists_handler_envelope.
  - apply findWasteName_handler_envelope.
Qed.

(** C4, as stated, fails: with no waste type in the table the list-types
    handler writes [{success: false, message, status}], an error envelope
    without a path. *)
Lemma getAllWasteTypes_empty_no_path :
  respond (getAllWasteTypes (Table.db [] [])) (request "/api/waste-types" [] [])
  = (VNum 404,
     [VObj [("success", VBool false); ("message", VStr "No waste types found.");
            ("status", VNum 404)]]) /\
  ~ (forall prisma req body,
        body ∈ (respond (getAllWasteTypes prisma) req).2 ->
        specified_envelope body = true).
Proof.
  split; [vm_compute; reflexivity |].
  intros H.
  specialize (H (Table.db [] []) (request "/api/waste-types" [] []) _
                ltac:(vm_compute; apply list_elem_of_here)).
  vm_compute in H. discriminate.
Qed.

(** ** Search by name *)

Lemma truthy_VStr (s : string) : truthy (VStr s) = false <-> s = "".
Proof.
  simpl. rewrite negb_false_iff. apply String.eqb_eq.
Qed.

(** The three answers of the name search for a name that is absent or a
    string and a query that settles: 400 with "Waste name is required." when
    the name is missing or trims to the empty string, 404 with "No waste found
    with the given name." when the query returns no row, and a success
    envelope with the rows when it returns some, at most 50 of them since the
    query asks for 50. *)
Lemma findWasteName_cases prisma req w :
  let name := prop (query req) "name" in
  (name = VUndefined \/ (exists s, name = VStr s /\ trim s = "") ->
   exists w',
     findWasteName prisma req w = (w', Return tt) /\
     statusCode (res w') = VNum 400 /\
     sent (res w') =
       (sent (res w) ++
        [VObj [("success", VBool false); ("message", VStr "Waste name is required.");
               ("status", VNum 400)]])%list) /\
  (forall s,
     name = VStr s -> trim s <> "" ->
     waste_findMany prisma (findWasteName_args (VStr (trim s))) = Return [] ->
     exists w',
       findWasteName prisma req w = (w', Return tt) /\
       statusCode (res w') = VNum 404 /\
       sent (res w') =
         (sent (res w) ++
          [VObj [("success", VBool false);
                 ("message", VStr "No waste found with the given name.");
                 ("status", VNum 404)]])%list) /\
  (forall s rows,
     name = VStr s -> trim s <> "" ->
     waste_findMany prisma (findWasteName_args (VStr (trim s))) = Return rows ->
     rows <> [] ->
     exists w',
       findWasteName prisma req w = (w', Return tt) /\
       statusCode (res w') = statusCode (res w) /\
       sent (res w') =
         (sent (res w) ++
          [VObj [("success", VBool true); ("message", VStr "Success");
                 ("data", VArr rows)]])%list /\
       get (findWasteName_args (VStr (trim s))) "take" = VNum 50 /\
       (honours_take prisma -> Z.of_nat (length rows) <= 50)).
Proof.
  intros name. repeat split.
  - intros Hname. eexists. split; [apply asyncHandler_return |].
    + unfold findWasteName_handler, bind, lift. fold name.
      assert (Htrim : exists v, optional_trim "req.query.name" name = Return v /\
                                truthy v = false).
      { destruct Hname as [-> | (s & -> & Hs)].
        - exists VUndefined. split; reflexivity.
        - exists (VStr (trim s)). split; [reflexivity |]. apply truthy_VStr, Hs. }
      destruct Htrim as (v & -> & ->). reflexivity.
    + split; reflexivity.
  - intros s Hname Hs Hq. eexists. split; [apply asyncHandler_return |].
    + unfold findWasteName_handler, bind, lift. fold name. rewrite Hname.
      cbn [optional_trim].
      destruct (truthy (VStr (trim s))) eqn:Ht;
        [| apply truthy_VStr in Ht; contradiction].
      cbn [negb]. rewrite Hq. reflexivity.
    + split; reflexivity.
  - intros s rows Hname Hs Hq Hrows. eexists. split; [apply asyncHandler_return |].
    + unfold findWasteName_handler, bind, lift. fold name. rewrite Hname.
      cbn [optional_trim].
      destruct (truthy (VStr (trim s))) eqn:Ht;
        [| apply truthy_VStr in Ht; contradiction].
      cbn [negb]. rewrite Hq, not_length_of.
      destruct rows as [| r rows]; [contradiction | reflexivity].
    + repeat split. intros Htake. apply (Htake _ _ 50 Hq). reflexivity.
Qed.

Lemma Table_db_honours_take types waste : honours_take (Table.db types waste).
Proof.
  intros args rows n Hq Htake. simpl in Hq. unfold Table.window in Hq.
  rewrite Htake in Hq. unfold Table.row_count at 2 in Hq.
  destruct (Table.row_count (get args "skip")) as [s |]; [| discriminate].
  destruct (Z.leb_spec 0 n) as [Hn | Hn]; [| discriminate].
  injection Hq as <-. rewrite length_take. lia.
Qed.

Lemma findWasteName_cases_witness :
  exists w',
    findWasteName (Table.db [] some_waste)
      (request "/api/waste/search" [] [("name", VStr " BATTERY ")]) world0
    = (w', Return tt) /\
    statusCode (res w') = VNum 200 /\
    sent (res w') =
      [VObj [("success", VBool true); ("message", VStr "Success");
             ("data", VArr [Table.waste_row 1 "Car battery" 2;
                            Table.waste_row 3 "Phone battery" 2])]] /\
    Z.of_nat (length [Table.waste_row 1 "Car battery" 2;
                      Table.waste_row 3 "Phone battery" 2]) <= 50.
Proof.
  destruct (findWasteName_cases (Table.db [] some_waste)
              (request "/api/waste/search" [] [("name", VStr " BATTERY ")]) world0)
    as (_ & _ & Hrows).
  destruct (Hrows " BATTERY "
              [Table.waste_row 1 "Car battery" 2; Table.waste_row 3 "Phone battery" 2])
    as (w' & Hrun & Hst & Hsent & _ & Hcap).
  - vm_compute. reflexivity.
  - vm_compute. discriminate.
  - vm_compute. reflexivity.
  - discriminate.
  - exists w'. split; [exact Hrun |]. split; [exact Hst |]. split; [exact Hsent |].
    apply (Hcap (Table_db_honours_take [] some_waste)).
Defined.

Example findWasteName_missing_name :
  respond (findWasteName (Table.db [] some_waste)) (request "/api/waste/search" [] [])
  = (VNum 400,
     [VObj [("success", VBool false); ("message", VStr "Waste name is required.");
            ("status", VNum 400)]]).
Proof. vm_compute. reflexivity. Qed.

Example findWasteName_no_match :
  respond (findWasteName (Table.db [] some_waste))
    (request "/api/waste/search" [] [("name", VStr "fridge")])
  = (VNum 404,
     [VObj [("success", VBool false);
            ("message", VStr "No waste found with the given name.");
            ("status", VNum 404)]]).
Proof. vm_compute. reflexivity. Qed.

(** A name given twice reaches the handler as an array, which has no [trim]:
    the wrapper renders the [TypeError]. *)
Example findWasteName_array_name :
  respond (findWasteName (Table.db [] some_waste))
    (request "/api/waste/search" [] [("name", VArr [VStr "a"; VStr "b"])])
  = (VNum 500,
     [VObj [("success", VBool false);
            ("message", VStr "req.query.name?.trim is not a function");
            ("status", VNum 500); ("path", VStr "/api/waste/search")]]).
Proof. vm_compute. reflexivity. Qed.

(** ** The paginated list *)

(** When both queries settle, the handler writes the rows and the count it
    was given, with the status left as it was: an empty result is a success,
    not a 404. *)
Lemma getWasteLists_success prisma req w search rows total :
  let pg := validatePagination (prop (query req) "page") (prop (query req) "limit") in
  let where_ := getWasteLists_where search in
  optional_trim "req.query.search" (prop (query req) "search") = Return search ->
  waste_findMany prisma (getWasteLists_args where_ pg) = Return rows ->
  waste_count prisma (VObj [("where", where_)]) = Return total ->
  exists w',
    getWasteLists prisma req w = (w', Return tt) /\
    statusCode (res w') = statusCode (res w) /\
    sent (res w') = (sent (res w) ++ [list_envelope rows total pg])%list.
Proof.
  intros pg where_ Hs Hq Hc. eexists. split; [apply asyncHandler_return |].
  - unfold getWasteLists_handler, bind, lift, Promise_all.
    rewrite Hs. fold pg where_. rewrite Hq, Hc. reflexivity.
  - split; reflexivity.
Qed.

(** [Math.ceil(total / limit)] for a count below [2^53] and a limit of at
    least 1 is the least number of pages of [limit] rows that hold [total]
    rows. *)
Lemma ceil_div_pages (total limit : Z) :
  0 <= total < 2 ^ 53 -> 1 <= limit ->
  exists n, ceil_div (Fin total) (Fin limit) = Fin n /\
            limit * (n - 1) < total <= limit * n.
Proof.
  intros Ht Hl. exists (- (- total / limit)). split.
  - unfold ceil_div. destruct (Z.eqb_spec limit 0) as [-> | _]; [lia |].
    unfold F.
    assert (Hb : - (2 ^ 53) < - total / limit <= 0).
    { split.
      - apply Z.lt_le_trans with (- total); [lia |].
        apply Z.div_le_lower_bound; [lia |]. nia.
      - apply Z.div_le_upper_bound; lia. }
    destruct (Z.ltb_spec (Z.abs (- (- total / limit))) (2 ^ 53)); [reflexivity | lia].
  - pose proof (Z.div_mod (- total) limit ltac:(lia)) as Hdm.
    pose proof (Z.mod_pos_bound (- total) limit ltac:(lia)) as Hm.
    nia.
Qed.

Lemma ceil_div_NaN (total : number) : ceil_div total NaN = NaN.
Proof. destruct total; reflexivity. Qed.

(** With a limit that parses as a number and a collaborator that honours
    [take], the page holds at most [limit] rows, [limit] being an integer of
    [1, 100], and [totalPages] is the count divided by the limit, rounded up. *)
Lemma getWasteLists_page_size prisma req rows where_ :
  let pg := validatePagination (prop (query req) "page") (prop (query req) "limit") in
  parseInt (with_default (prop (query req) "limit") (VNum 10)) <> NaN ->
  honours_take prisma ->
  waste_findMany prisma (getWasteLists_args where_ pg) = Return rows ->
  exists l, limit pg = Fin l /\ 1 <= l <= 100 /\ Z.of_nat (length rows) <= l /\
            forall total, 0 <= total < 2 ^ 53 ->
              exists n, ceil_div (Fin total) (limit pg) = Fin n /\
                        l * (n - 1) < total <= l * n.
Proof.
  intros pg Hl Htake Hq.
  destruct (validatePagination_limit_range (prop (query req) "page")
              (prop (query req) "limit") Hl) as (l & Hlim & Hrange).
  fold pg in Hlim. exists l. split; [exact Hlim |]. split; [exact Hrange |]. split.
  - apply (Htake _ _ l Hq). unfold getWasteLists_args. rewrite Hlim. reflexivity.
  - intros total Ht. rewrite Hlim. apply ceil_div_pages; lia.
Qed.

Example getWasteLists_empty_table :
  respond (getWasteLists (Table.db [] [])) (request "/api/waste" [] [])
  = (VNum 200,
     [VObj [("success", VBool true); ("message", VStr "Success");
            ("data", VObj [("items", VArr []);
                           ("pagination",
                            VObj [("total", VNum 0); ("page", VNum 1);
                                  ("limit", VNum 10); ("totalPages", VNum 0)])])]]).
Proof. vm_compute. reflexivity. Qed.

Example getWasteLists_scenario :
  respond (getWasteLists (Table.db [] (Table.rows 120)))
    (request "/api/waste" [] [("page", VStr "2"); ("limit", VStr "50")])
  = (VNum 200,
     [VObj [("success", VBool true); ("message", VStr "Success");
            ("data", VObj [("items", VArr (drop 50 (Table.rows 100)));
                           ("pagination",
                            VObj [("total", VNum 120); ("page", VNum 2);
                                  ("limit", VNum 50); ("totalPages", VNum 3)])])]]).
Proof. vm_compute. reflexivity. Qed.

(** C6, at a limit that is not numeric: for the request [?limit=abc] the
    limit handed to the collaborator and echoed in the pagination is NaN.
    Whatever the collaborator answers, the handler writes either an error
    envelope or a page whose [limit] and [totalPages] are NaN, for which
    [items.length <= limit] is false. *)
Theorem getWasteLists_non_numeric_limit prisma w :
  let req := request "/api/waste" [] [("limit", VStr "abc")] in
  exists w' env,
    getWasteLists prisma req w = (w', Return tt) /\
    sent (res w') = (sent (res w) ++ [env])%list /\
    (get env "success" = VBool false \/
     exists rows total,
       env = list_envelope rows total {| page := 1; limit := NaN; skip := NaN |} /\
       get (get (get env "data") "pagination") "totalPages" = VNum NaN /\
       le (Fin (Z.of_nat (length rows))) NaN = false).
Proof.
  intros req.
  assert (Hpg : validatePagination (prop (query req) "page") (prop (query req) "limit")
                = {| page := 1; limit := NaN; skip := NaN |}) by (vm_compute; reflexivity).
  assert (Hs : optional_trim "req.query.search" (prop (query req) "search")
               = Return VUndefined) by (vm_compute; reflexivity).
  destruct (getWasteLists_handler prisma req w) as [w1 [[] | e]] eqn:Hrun.
  - pose proof Hrun as Hbody. revert Hbody.
    unfold getWasteLists_handler, bind, lift, Promise_all. rewrite Hs, Hpg.
    destruct (waste_findMany prisma _) as [rows | e1],
             (waste_count prisma _) as [total | e2]; try discriminate.
    intros [= Hw1]. exists w1. eexists.
    split; [apply asyncHandler_return; exact Hrun |].
    split; [rewrite <- Hw1; reflexivity |]. right. exists rows, total.
    split; [reflexivity |]. split; [| reflexivity].
    cbn. rewrite ceil_div_NaN. reflexivity.
  - destruct (asyncHandler_throw "" _ req w w1 e Hrun) as (w2 & Hrun2 & _ & Hsent & _).
    exists w2. eexists. split; [exact Hrun2 |]. split.
    + rewrite Hsent.
      pose proof (getWasteLists_handler_envelope prisma req w) as Hw.
      rewrite Hrun in Hw. rewrite Hw. reflexivity.
    + left. reflexivity.
Qed.

(** ** The cache store *)

Section Store.

Variables (cache : nat) (key : string) (w : World).
Hypothesis allocated : (cache < length (stores w))%nat.

(** After [set(key, value, ttl)] the store holds, for [key], the value with
    the expiry [now + ttl * 1000], in place of any earlier entry; the other
    keys are as before. *)
Lemma cache_set_store (v : val) (ttl : option number) :
  let w' := (cache_set cache key v ttl w).1 in
  the_store cache w' =
    <[key := {| value := v;
                expires := add (Fin (clock w)) (mul (default (Fin 3600) ttl) 1000) |}]>
      (the_store cache w) /\
  clock w' = clock w.
Proof.
  unfold cache_set, bind, Date_now, Map_set, the_store. simpl.
  rewrite list_lookup_insert_eq by exact allocated. split; reflexivity.
Qed.

Lemma cache_clear_store :
  the_store cache (cache_clear cache key w).1 = delete key (the_store cache w).
Proof.
  unfold cache_clear, Map_delete, the_store. simpl.
  rewrite list_lookup_insert_eq by exact allocated. reflexivity.
Qed.

End Store.

(** [get(key)]: the stored value while the clock is before the expiry,
    [null] once it is not, or when there is no entry; the world is left as
    it was. *)
Lemma cache_get_spec (cache : nat) (key : string) (w : World) :
  cache_get cache key w =
    (w, Return match the_store cache w !! key with
               | Some item =>
                   if lt (Fin (clock w)) (expires item) then value item else VNull
               | None => VNull
               end).
Proof.
  unfold cache_get, bind, Map_get, Date_now, ret, gt.
  destruct (the_store cache w !! key); reflexivity.
Qed.

Lemma cache_get_after_set (cache : nat) (key : string) (w : World) v (ttl later : Z) :
  (cache < length (stores w))%nat ->
  let w' := (cache_set cache key v (Some (Fin ttl)) w).1 in
  let at_ (t : Z) :=
    {| res := res w'; logs := logs w'; stores := stores w'; clock := t |} in
  Z.abs (ttl * 1000) < 2 ^ 53 -> Z.abs (clock w + ttl * 1000) < 2 ^ 53 ->
  cache_get cache key (at_ later) =
    (at_ later, Return (if later <? clock w + ttl * 1000 then v else VNull)).
Proof.
  intros Halloc w' at_ Hms Hexp. rewrite cache_get_spec.
  assert (Hst : the_store cache (at_ later) = the_store cache w') by reflexivity.
  rewrite Hst. unfold w'.
  destruct (cache_set_store cache key w Halloc v (Some (Fin ttl))) as [-> _].
  rewrite lookup_insert_eq. cbn [expires value].
  change (default (Fin 3600) (Some (Fin ttl))) with (Fin ttl).
  change (mul (Fin ttl) 1000) with (F (ttl * 1000)).
  rewrite F_exact by exact Hms.
  change (add (Fin (clock w)) (Fin (ttl * 1000))) with (F (clock w + ttl * 1000)).
  rewrite F_exact by exact Hexp. reflexivity.
Qed.

(** ** The cache decorator *)

Lemma withCache_try_spec cache getCacheKey ttl req next w :
  withCache_try cache getCacheKey ttl req next w =
    match cache_key getCacheKey req with
    | Throw e => (w, Throw e)
    | Return k =>
        if truthy (cached_value cache k w) then res_json (cached_value cache k w) w
        else next None (after_miss cache k ttl w)
    end.
Proof.
  unfold withCache_try, bind, lift.
  destruct (cache_key getCacheKey req) as [k | e]; [| reflexivity].
  rewrite cache_get_spec. fold (cached_value cache k w).
  destruct (truthy (cached_value cache k w)); reflexivity.
Qed.

(** An unexpired entry with a truthy value is written as the response, and
    the next stage is not called. *)
Lemma withCache_try_hit cache getCacheKey ttl req next w k item :
  cache_key getCacheKey req = Return k ->
  the_store cache w !! k = Some item ->
  lt (Fin (clock w)) (expires item) = true ->
  truthy (value item) = true ->
  withCache_try cache getCacheKey ttl req next w = res_json (value item) w.
Proof.
  intros Hk Hitem Hlive Htruthy. rewrite withCache_try_spec, Hk.
  unfold cached_value. rewrite Hitem, Hlive, Htruthy. reflexivity.
Qed.

(** An expired entry is a miss. *)
Lemma withCache_try_expired cache getCacheKey ttl req next w k item :
  cache_key getCacheKey req = Return k ->
  the_store cache w !! k = Some item ->
  lt (Fin (clock w)) (expires item) = false ->
  withCache_try cache getCacheKey ttl req next w = next None (after_miss cache k ttl w).
Proof.
  intros Hk Hitem Hdead. rewrite withCache_try_spec, Hk.
  unfold cached_value. rewrite Hitem, Hdead. reflexivity.
Qed.

(** C10: an entry whose value is falsy is a miss even when it is present
    and not expired: nothing is written and the next stage is called. *)
Theorem withCache_try_falsy_miss cache getCacheKey ttl req next w k item :
  cache_key getCacheKey req = Return k ->
  the_store cache w !! k = Some item ->
  truthy (value item) = false ->
  withCache_try cache getCacheKey ttl req next w = next None (after_miss cache k ttl w) /\
  sent (res (after_miss cache k ttl w)) = sent (res w).
Proof.
  intros Hk Hitem Hfalsy. split; [| reflexivity].
  rewrite withCache_try_spec, Hk.
  unfold cached_value. rewrite Hitem.
  destruct (lt (Fin (clock w)) (expires item)); [rewrite Hfalsy |]; reflexivity.
Qed.

Lemma withCache_try_falsy_miss_witness :
  lt (Fin (clock world_with_zero)) (Fin 1000) = true /\
  sent (res (withCache_try 0 (KeyLiteral "k") 3600 (request "/api/waste" [] [])
               handled world_with_zero).1)
  = [VStr "handled"].
Proof.
  split; [reflexivity |].
  destruct (withCache_try_falsy_miss 0 (KeyLiteral "k") 3600 (request "/api/waste" [] [])
              handled world_with_zero "k" {| value := VNum 0; expires := Fin 1000 |}
              eq_refl eq_refl eq_refl) as [-> _].
  reflexivity.
Defined.

(** C3: the middleware looks its key up in a store it has just created, which
    is empty, so the lookup gives [null] for every key and the cached value is
    never written: the run is that of the next stage, called with the failure
    of the key computation if there is one, and else called without argument
    (a failure it throws synchronously being passed to it again), in a world
    where the middleware has sent nothing. *)
Theorem withCache_never_hits getCacheKey ttl req next w :
  let cache := length (stores w) in
  let w0 := (createCache w).1 in
  the_store cache w0 = ∅ /\
  (forall k, cache_get cache k w0 = (w0, Return VNull)) /\
  withCache getCacheKey ttl req next w =
    match cache_key getCacheKey req with
    | Throw e => next (Some e) w0
    | Return k =>
        try_catch (next None) (fun e => next (Some e))
          (after_miss cache k (default (Fin 3600) ttl) w0)
    end /\
  sent (res w0) = sent (res w) /\
  (forall k t, sent (res (after_miss cache k t w0)) = sent (res w)).
Proof.
  intros cache w0.
  assert (Hempty : the_store cache w0 = ∅).
  { unfold the_store, w0, createCache, cache. simpl.
    rewrite list_lookup_middle by reflexivity. reflexivity. }
  split; [exact Hempty |]. split; [| split; [| split; [reflexivity | reflexivity]]].
  - intros k. rewrite cache_get_spec, Hempty, lookup_empty. reflexivity.
  - unfold withCache, bind. change (createCache w) with (w0, Return cache).
    unfold try_catch at 1. rewrite withCache_try_spec.
    destruct (cache_key getCacheKey req) as [k | e]; [| reflexivity].
    unfold cached_value. rewrite Hempty, lookup_empty. reflexivity.
Qed.

(** *** Two requests with the same key *)

(** C9, on two requests that produce the same key: the store of the first
    request holds the response for that key, not expired when the second
    request arrives, and a lookup in it would return the response; yet the
    second request looks into a store of its own and reaches the wrapped
    handler instead of answering with the stored value. *)
Theorem withCache_second_request_misses :
  the_store 0 TwoRequests.after_first !! "waste:list"
    = Some {| value := TwoRequests.data; expires := Fin 3600000 |} /\
  cached_value 0 "waste:list" TwoRequests.before_second = TwoRequests.data /\
  truthy TwoRequests.data = true /\
  sent (res TwoRequests.after_second) = [VStr "handled"] /\
  length (stores TwoRequests.after_second) = 2%nat /\
  the_store 1 TwoRequests.after_second = ∅.
Proof. vm_compute. repeat split. Qed.

(** * Further properties *)

(** ** Decimal identifiers *)

(** Reading the digits of a decimal numeral continues the number read so
    far. *)
Lemma read_digits_uint (d : Decimal.uint) (acc : Z) :
  read_digits (NilEmpty.string_of_uint d) (Some acc)
  = Some (Z.of_N (Unsigned.of_lu (Decimal.rev d))
          + acc * 10 ^ Z.of_N (Unsigned.usize d)).
Proof.
  revert acc.
  induction d; intros acc.
  1: { simpl; f_equal; lia. }
  all: cbn [NilEmpty.string_of_uint read_digits].
  all: match goal with
    | |- context [ digit_of ?c ] =>
        let v := eval vm_compute in (digit_of c) in
        change (digit_of c) with v
    end.
  all: cbn [default option_rect]; unfold id.
  all: unfold Decimal.rev at 1; cbn [Decimal.revapp].
  all: match goal with
    | |- context [ Decimal.revapp ?x ?t ] => rewrite (Unsigned.of_lu_revapp x t)
    end.
  all: rewrite IHd; cbn [Unsigned.of_lu Unsigned.usize].
  all: rewrite N2Z.inj_add, N2Z.inj_mul, N2Z.inj_pow, N2Z.inj_succ.
  all: rewrite Z.pow_succ_r by apply N2Z.is_nonneg.
  all: f_equal; simpl Z.of_N; ring.
Qed.

Lemma read_digits_numeral (d : Decimal.uint) :
  d <> Decimal.Nil ->
  read_digits (NilEmpty.string_of_uint d) None = Some (Z.of_N (Pos.of_uint d)).
Proof.
  intros Hd. rewrite Unsigned.of_uint_alt.
  assert (H0 : read_digits (NilEmpty.string_of_uint d) None
               = read_digits (NilEmpty.string_of_uint d) (Some 0))
    by (destruct d; [contradiction | reflexivity ..]).
  rewrite H0, read_digits_uint. f_equal. lia.
Qed.

(** A string that starts with a digit has no white space to skip and no
    sign. *)
Lemma parseInt_string_digit (c : ascii) (s : string) (d0 : Z) :
  digit_of c = Some d0 ->
  parseInt_string (String c s)
  = match read_digits (String c s) None with None => NaN | Some m => F (1 * m) end /\
  parseInt_string (String "-" (String c s))
  = match read_digits (String c s) None with None => NaN | Some m => F (-1 * m) end.
Proof.
  intros Hc.
  destruct c as [[] [] [] [] [] [] [] []];
    try (cbv in Hc; discriminate Hc); split; reflexivity.
Qed.

Lemma parseInt_string_numeral (d : Decimal.uint) :
  d <> Decimal.Nil ->
  parseInt_string (NilEmpty.string_of_uint d) = F (Z.of_N (Pos.of_uint d)) /\
  parseInt_string (String "-" (NilEmpty.string_of_uint d)) = F (- Z.of_N (Pos.of_uint d)).
Proof.
  intros Hd. pose proof (read_digits_numeral d Hd) as Hr.
  assert (Hfirst : exists c s d0, NilEmpty.string_of_uint d = String c s /\
                                  digit_of c = Some d0).
  { destruct d; [contradiction | ..]; eexists _, _, _; split; reflexivity. }
  destruct Hfirst as (c & s & d0 & Hs & Hc). rewrite Hs in *.
  destruct (parseInt_string_digit c s d0 Hc) as [-> ->]. rewrite Hr.
  split; f_equal; lia.
Qed.

(** Parsing the decimal digits of an integer gives back the double nearest
    to it. *)
Lemma parseInt_string_dec (z : Z) : parseInt_string (dec z) = F z.
Proof.
  unfold dec. destruct z as [| p | p]; [reflexivity | ..];
    cbn [Z.to_int NilZero.string_of_int];
    pose proof (Unsigned.to_uint_nonnil p) as Hnil;
    destruct (parseInt_string_numeral (Pos.to_uint p) Hnil) as [Hpos Hneg];
    assert (Hs : NilZero.string_of_uint (Pos.to_uint p)
                 = NilEmpty.string_of_uint (Pos.to_uint p))
      by (destruct (Pos.to_uint p); [contradiction | reflexivity ..]);
    rewrite Hs, ?Hpos, ?Hneg, Unsigned.of_to; reflexivity.
Qed.

(** X1: [validateId] accepts the decimal digits of every positive integer
    below [2^53] and returns that integer, and rejects the digits of zero and
    of every negative integer. *)
Theorem validateId_decimal (z : Z) (entityName : val) :
  Z.abs z < 2 ^ 53 ->
  validateId (VStr (dec z)) entityName =
    if 0 <? z then Return (Fin z)
    else Throw (new_Error ("Invalid " +:+ to_string (with_default entityName (VStr "ID"))
                           +:+ " provided")).
Proof.
  intros Hz. unfold validateId, parseInt. cbn [to_string].
  rewrite parseInt_string_dec, F_exact by exact Hz.
  cbn [isNaN orb le]. destruct (Z.ltb_spec 0 z), (Z.leb_spec z 0); try lia; reflexivity.
Qed.

Lemma validateId_decimal_witness :
  validateId (VStr "42") (VStr "Waste Type") = Return (Fin 42).
Proof.
  exact (validateId_decimal 42 (VStr "Waste Type") ltac:(vm_compute; reflexivity)).
Defined.

(** The double nearest to a non-negative integer is not negative, and is
    never NaN. *)
Lemma F_nonneg (z : Z) : 0 <= z -> le 0 (F z) = true.
Proof.
  intros Hz. unfold F.
  destruct (Z.abs z <? 2 ^ 53); [apply Z.leb_le; exact Hz |].
  destruct (2 ^ 1024 <=? _) eqn:Hover.
  - destruct (Z.ltb_spec z 0); [lia | reflexivity].
  - apply Z.leb_le. apply Z.mul_nonneg_nonneg; [lia |].
    apply Z.shiftl_nonneg.
    match goal with
    | |- 0 <= (if ?b then ?q + 1 else ?q) =>
        assert (0 <= q) by (apply Z.shiftr_nonneg; lia); destruct b; lia
    end.
Qed.

(** X2: when the page and the limit are absent or parse as numbers, the
    pagination has a page of at least 1, an integer limit of [1, 100] and a
    skip that is not negative. *)
Theorem validatePagination_clamps (p l : val) :
  parseInt (with_default p (VNum 1)) <> NaN ->
  parseInt (with_default l (VNum 10)) <> NaN ->
  let pg := validatePagination p l in
  le 1 (page pg) = true /\
  (exists n, limit pg = Fin n /\ 1 <= n <= 100) /\
  le 0 (skip pg) = true.
Proof.
  intros Hp Hl pg.
  destruct (validatePagination_limit_range p l Hl) as (n & Hlim & Hn).
  pose proof (validatePagination_page_min p l Hp) as Hpage.
  fold pg in Hlim, Hpage.
  split; [exact Hpage |]. split; [exists n; split; assumption |].
  change (le 0 (mul (sub (page pg) 1) (limit pg)) = true). rewrite Hlim.
  destruct (page pg) as [| z | |]; try discriminate Hpage.
  - apply Z.leb_le in Hpage. unfold sub, neg, add.
    assert (Hsub : le 0 (F (z + - (1))) = true) by (apply F_nonneg; lia).
    destruct (F (z + - (1))) as [| a | |]; try discriminate Hsub.
    + apply Z.leb_le in Hsub. apply F_nonneg. nia.
    + cbn. destruct (Z.eqb_spec n 0); [lia |]. destruct (Z.ltb_spec n 0); [lia | reflexivity].
  - cbn. destruct (Z.eqb_spec n 0); [lia |]. destruct (Z.ltb_spec n 0); [lia | reflexivity].
Qed.

Lemma validatePagination_clamps_witness :
  let pg := validatePagination (VStr "-3") VUndefined in
  le 1 (page pg) = true /\
  (exists n, limit pg = Fin n /\ 1 <= n <= 100) /\
  le 0 (skip pg) = true.
Proof.
  apply (validatePagination_clamps (VStr "-3") VUndefined);
    vm_compute; discriminate.
Defined.

(** X3: on the decimal digits of integers [p] and [l] the pagination is
    page [max 1 p], limit [min 100 (max 1 l)] and skip their exact product
    [(page - 1) * limit]. *)
Theorem validatePagination_decimal (p l : Z) :
  Z.abs p < 2 ^ 46 -> Z.abs l < 2 ^ 53 ->
  validatePagination (VStr (dec p)) (VStr (dec l)) =
    {| page := Fin (Z.max 1 p);
       limit := Fin (Z.min 100 (Z.max 1 l));
       skip := Fin ((Z.max 1 p - 1) * Z.min 100 (Z.max 1 l)) |}.
Proof.
  intros Hp Hl. unfold validatePagination, parseInt. cbn [with_default to_string].
  rewrite !parseInt_string_dec.
  rewrite (F_exact p) by lia. rewrite (F_exact l) by exact Hl.
  rewrite max_1_Fin, max_1_Fin, min_100_Fin.
  f_equal. unfold sub, neg, add.
  rewrite F_exact by lia. unfold mul. rewrite F_exact by nia.
  reflexivity.
Qed.

Lemma validatePagination_decimal_witness :
  validatePagination (VStr "3") (VStr "250")
  = {| page := Fin 3; limit := Fin 100; skip := Fin 200 |}.
Proof.
  exact (validatePagination_decimal 3 250 ltac:(vm_compute; reflexivity)
           ltac:(vm_compute; reflexivity)).
Defined.

(** ** The envelope builder *)

Lemma obj_get_obj_set (k k' : string) (v : val) (o : list (string * val)) :
  obj_get k (obj_set k' v o) = if String.eqb k' k then v else obj_get k o.
Proof.
  induction o as [| [k0 v0] o IH]; cbn [obj_set obj_get].
  - destruct (String.eqb_spec k' k); reflexivity.
  - destruct (String.eqb_spec k0 k') as [-> | Hne]; cbn [obj_get].
    + destruct (String.eqb_spec k' k); reflexivity.
    + rewrite IH. destruct (String.eqb_spec k0 k) as [-> | Hk]; [| reflexivity].
      destruct (String.eqb_spec k' k); [congruence | reflexivity].
Qed.

Lemma has_key_false (k : string) (o : list (string * val)) :
  has_key k o = false -> obj_get k o = VUndefined.
Proof.
  unfold has_key, keys. induction o as [| [k0 v0] o IH]; [reflexivity |].
  cbn [map existsb fst obj_get]. rewrite String.eqb_sym.
  destruct (String.eqb k0 k); [discriminate | exact IH].
Qed.

(** A property of the spread object wins over the property of the same name
    written before it; the other properties are kept. *)
Lemma obj_get_spread (k : string) (base d : list (string * val)) :
  NoDup (keys d) ->
  obj_get k (spread base (VObj d)) = if has_key k d then obj_get k d else obj_get k base.
Proof.
  unfold spread. cbn [own_props]. revert base.
  induction d as [| [k0 v0] d IH]; intros base Hd; [reflexivity |].
  cbn [fold_left fst snd]. apply NoDup_cons in Hd as [Hk0 Hd].
  rewrite (IH _ Hd). unfold has_key, keys. cbn [map existsb fst obj_get].
  rewrite (String.eqb_sym k k0).
  destruct (String.eqb_spec k0 k) as [-> | Hne].
  - cbn [orb]. change (existsb (String.eqb k) (map fst d)) with (has_key k d).
    destruct (has_key k d) eqn:Hin.
    + exfalso. apply Hk0. unfold has_key, keys in Hin.
      apply existsb_exists in Hin as (k' & Hin & Heq).
      apply String.eqb_eq in Heq. subst k'. apply list_elem_of_In. exact Hin.
    + rewrite obj_get_obj_set, String.eqb_refl. reflexivity.
  - cbn [orb]. change (existsb (String.eqb k) (map fst d)) with (has_key k d).
    destruct (has_key k d); [reflexivity |].
    rewrite obj_get_obj_set. destruct (String.eqb_spec k0 k); [contradiction | reflexivity].
Qed.

(** X4: a property of [meta] (of [details]) overrides the envelope's own
    property of that name, [success], [message], [data] or [status] included,
    and every other property of the envelope is as without it. *)
Theorem ApiResponse_spread_overrides (a b : val) (d : list (string * val)) (k : string) :
  NoDup (keys d) ->
  get (ApiResponse.success a b (VObj d)) k
    = (if has_key k d then obj_get k d else get (ApiResponse.success a b VUndefined) k) /\
  get (ApiResponse.error a b (VObj d)) k
    = (if has_key k d then obj_get k d else get (ApiResponse.error a b VUndefined) k).
Proof.
  intros Hd. unfold ApiResponse.success, ApiResponse.error.
  cbn [with_default get]. split; rewrite (obj_get_spread _ _ d Hd); reflexivity.
Qed.

Lemma ApiResponse_spread_overrides_witness :
  get (ApiResponse.error (VStr "Gone") (VNum 410)
         (VObj [("path", VStr "/api/waste"); ("status", VNum 404)])) "status"
  = VNum 404.
Proof.
  destruct (ApiResponse_spread_overrides (VStr "Gone") (VNum 410)
              [("path", VStr "/api/waste"); ("status", VNum 404)] "status"
              ltac:(repeat (apply NoDup_cons_2;
                              [rewrite list_elem_of_In; simpl; intuition discriminate |]);
                    apply NoDup_nil_2)) as [_ H].
  exact H.
Defined.

(** ** The wrapper, further *)

(** The wrapper itself never throws. *)
Lemma asyncHandler_returns name handler req w :
  exists w', asyncHandler name handler req w = (w', Return tt).
Proof.
  destruct (handler req w) as [w1 [[] | e]] eqn:Hrun.
  - exists w1. apply asyncHandler_return. exact Hrun.
  - destruct (asyncHandler_throw name handler req w w1 e Hrun) as (w2 & Hrun2 & _).
    exists w2. exact Hrun2.
Qed.

(** X5: wrapping a wrapped handler again changes nothing: the inner wrapper
    has already turned every failure into a response, so the outer one
    neither logs nor writes. *)
Theorem asyncHandler_nested name name' handler req w :
  asyncHandler name (asyncHandler name' handler) req w
  = asyncHandler name' handler req w.
Proof.
  destruct (asyncHandler_returns name' handler req w) as (w' & Hrun).
  rewrite (asyncHandler_return name _ req w w' Hrun). symmetry. exact Hrun.
Qed.

(** X6: a failure is logged once, at level error, with its message, its
    stack, the path and the method of the request, and the body written for it
    has no [stack] property; a handler that returns is not logged and nothing
    is written for it. *)
Theorem asyncHandler_logs name handler req w :
  match handler req w with
  | (w1, Return _) => asyncHandler name handler req w = (w1, Return tt)
  | (w1, Throw e) =>
      let w2 := (asyncHandler name handler req w).1 in
      logs w2 = (logs w1 ++ [failure_log name req e])%list /\
      exists env, sent (res w2) = (sent (res w1) ++ [env])%list /\
                  get env "stack" = VUndefined /\
                  get env "path" = VStr (path req)
  end.
Proof.
  destruct (handler req w) as [w1 [[] | e]] eqn:Hrun.
  - apply asyncHandler_return. exact Hrun.
  - destruct (asyncHandler_throw name handler req w w1 e Hrun)
      as (w2 & Hrun2 & _ & Hsent & _).
    cbv zeta. split.
    + unfold asyncHandler, try_catch. rewrite Hrun. reflexivity.
    + rewrite Hrun2. eexists. split; [exact Hsent |]. split; reflexivity.
Qed.

(** ** The handlers, case by case *)

(** What the wrapper leaves for a failure [e] of the handler, stated with
    [failure_status]. *)
Lemma asyncHandler_renders name handler req w w1 e :
  handler req w = (w1, Throw e) ->
  exists w2,
    asyncHandler name handler req w = (w2, Return tt) /\
    statusCode (res w2) = failure_status e /\
    sent (res w2) = (sent (res w1) ++ [rendered req e (failure_status e)])%list.
Proof.
  intros Hrun.
  destruct (asyncHandler_throw name handler req w w1 e Hrun) as (w2 & H1 & H2 & H3 & _).
  exists w2. split; [exact H1 |]. split; [exact H2 | exact H3].
Qed.

(** X7: the list of waste types answers 404 "No waste types found." when
    the table is empty, a success envelope with the rows (status untouched)
    when it is not, and the rendering of the failure when the query rejects. *)
Theorem getAllWasteTypes_cases prisma req w :
  exists w',
    getAllWasteTypes prisma req w = (w', Return tt) /\
    match waste_type_findMany prisma getAllWasteTypes_args with
    | Return [] =>
        statusCode (res w') = VNum 404 /\
        sent (res w') =
          (sent (res w) ++
           [VObj [("success", VBool false); ("message", VStr "No waste types found.");
                  ("status", VNum 404)]])%list
    | Return rows =>
        statusCode (res w') = statusCode (res w) /\
        sent (res w') =
          (sent (res w) ++
           [VObj [("success", VBool true); ("message", VStr "Success");
                  ("data", VArr rows)]])%list
    | Throw e =>
        statusCode (res w') = failure_status e /\
        sent (res w') = (sent (res w) ++ [rendered req e (failure_status e)])%list
    end.
Proof.
  unfold getAllWasteTypes.
  destruct (waste_type_findMany prisma getAllWasteTypes_args) as [rows | e] eqn:Hq.
  - destruct rows as [| r rows];
      (eexists; split;
       [ apply asyncHandler_return;
         unfold getAllWasteTypes_handler, bind, lift; rewrite Hq, not_length_of;
         reflexivity
       | split; reflexivity ]).
  - edestruct (asyncHandler_renders "" (getAllWasteTypes_handler prisma) req w w e)
      as (w' & Hrun & Hst & Hsent).
    + unfold getAllWasteTypes_handler, bind, lift. rewrite Hq. reflexivity.
    + exists w'. split; [exact Hrun |]. split; [exact Hst | exact Hsent].
Qed.

(** X8: for an identifier that [validateId] accepts, the handler queries
    the waste of that type and answers 404 "No waste found for the given ID."
    when there is none, a success envelope with the rows when there is, and
    the rendering of the failure when the query rejects. *)
Theorem getWasteById_cases prisma req w wasteTypeId :
  validateId (prop (params req) "id") (VStr "Waste Type") = Return wasteTypeId ->
  exists w',
    getWasteById prisma req w = (w', Return tt) /\
    match waste_findMany prisma (getWasteById_args wasteTypeId) with
    | Return [] =>
        statusCode (res w') = VNum 404 /\
        sent (res w') =
          (sent (res w) ++
           [VObj [("success", VBool false);
                  ("message", VStr "No waste found for the given ID.");
                  ("status", VNum 404)]])%list
    | Return rows =>
        statusCode (res w') = statusCode (res w) /\
        sent (res w') =
          (sent (res w) ++
           [VObj [("success", VBool true); ("message", VStr "Success");
                  ("data", VArr rows)]])%list
    | Throw e =>
        statusCode (res w') = failure_status e /\
        sent (res w') = (sent (res w) ++ [rendered req e (failure_status e)])%list
    end /\
    get (get (getWasteById_args wasteTypeId) "where") "waste_type_id" = VNum wasteTypeId.
Proof.
  intros Hid. unfold getWasteById.
  destruct (waste_findMany prisma (getWasteById_args wasteTypeId)) as [rows | e] eqn:Hq.
  - destruct rows as [| r rows];
      (eexists; split;
       [ apply asyncHandler_return;
         unfold getWasteById_handler, bind, lift; rewrite Hid, Hq, not_length_of;
         reflexivity
       | split; [split; reflexivity | reflexivity] ]).
  - edestruct (asyncHandler_renders "" (getWasteById_handler prisma) req w w e)
      as (w' & Hrun & Hst & Hsent).
    + unfold getWasteById_handler, bind, lift. rewrite Hid, Hq. reflexivity.
    + exists w'. split; [exact Hrun |]. split; [| reflexivity].
      split; [exact Hst | exact Hsent].
Qed.

Lemma getWasteById_cases_witness :
  exists w',
    getWasteById (Table.db [] some_waste) (request "/api/waste/2" [("id", VStr "2")] []) world0
    = (w', Return tt) /\
    statusCode (res w') = VNum 200 /\
    sent (res w') =
      [VObj [("success", VBool true); ("message", VStr "Success");
             ("data", VArr [Table.waste_row 1 "Car battery" 2;
                            Table.waste_row 3 "Phone battery" 2])]].
Proof.
  destruct (getWasteById_cases (Table.db [] some_waste)
              (request "/api/waste/2" [("id", VStr "2")] []) world0 (Fin 2) eq_refl)
    as (w' & Hrun & Hcase & _).
  exists w'. split; [exact Hrun |]. exact Hcase.
Defined.

(** X9: the paginated list, outcome by outcome. A search parameter that is
    not a string fails before any query; when both queries settle the rows
    and the count are written in a success envelope, the status untouched;
    when one query rejects its failure is rendered, and when both reject the
    failure rendered is the one that settles first. *)
Theorem getWasteLists_cases prisma req w :
  let pg := validatePagination (prop (query req) "page") (prop (query req) "limit") in
  let answers (w' : World) (status : val) (body : val) :=
    statusCode (res w') = status /\ sent (res w') = (sent (res w) ++ [body])%list in
  exists w',
    getWasteLists prisma req w = (w', Return tt) /\
    match optional_trim "req.query.search" (prop (query req) "search") with
    | Throw e => answers w' (failure_status e) (rendered req e (failure_status e))
    | Return search =>
        let where_ := getWasteLists_where search in
        match waste_findMany prisma (getWasteLists_args where_ pg),
              waste_count prisma (VObj [("where", where_)]) with
        | Return rows, Return total =>
            answers w' (statusCode (res w)) (list_envelope rows total pg)
        | Throw e, Return _ | Return _, Throw e =>
            answers w' (failure_status e) (rendered req e (failure_status e))
        | Throw e1, Throw e2 =>
            let e := if count_settles_first prisma then e2 else e1 in
            answers w' (failure_status e) (rendered req e (failure_status e))
        end
    end.
Proof.
  intros pg answers. unfold answers, getWasteLists.
  assert (Hfail : forall e,
             getWasteLists_handler prisma req w = (w, Throw e) ->
             exists w',
               asyncHandler "" (getWasteLists_handler prisma) req w = (w', Return tt) /\
               statusCode (res w') = failure_status e /\
               sent (res w') = (sent (res w) ++ [rendered req e (failure_status e)])%list).
  { intros e He. apply (asyncHandler_renders "" _ req w w e He). }
  destruct (optional_trim _ _) as [search | e] eqn:Hs.
  - cbv zeta.
    destruct (waste_findMany prisma _) as [rows | e1] eqn:Hq,
             (waste_count prisma _) as [total | e2] eqn:Hc.
    + destruct (getWasteLists_success prisma req w search rows total Hs Hq Hc)
        as (w' & Hrun & Hst & Hsent).
      exists w'. split; [exact Hrun |]. split; [exact Hst | exact Hsent].
    + apply Hfail. unfold getWasteLists_handler, bind, lift, Promise_all.
      rewrite Hs. fold pg. rewrite Hq, Hc. reflexivity.
    + apply Hfail. unfold getWasteLists_handler, bind, lift, Promise_all.
      rewrite Hs. fold pg. rewrite Hq, Hc. reflexivity.
    + apply Hfail. unfold getWasteLists_handler, bind, lift, Promise_all.
      rewrite Hs. fold pg. rewrite Hq, Hc. reflexivity.
  - apply Hfail. unfold getWasteLists_handler, bind, lift. rewrite Hs. reflexivity.
Qed.

(** X10: with a limit that is absent or parses as a number, a collaborator
    that honours [take] and a count below [2^53], the page written has at most
    [limit] rows, [limit] being an integer of [1, 100], and [totalPages] is
    the least number of pages of [limit] rows that hold the count. *)
Theorem getWasteLists_page prisma req w search rows total :
  let pg := validatePagination (prop (query req) "page") (prop (query req) "limit") in
  let where_ := getWasteLists_where search in
  optional_trim "req.query.search" (prop (query req) "search") = Return search ->
  parseInt (with_default (prop (query req) "limit") (VNum 10)) <> NaN ->
  honours_take prisma ->
  waste_findMany prisma (getWasteLists_args where_ pg) = Return rows ->
  waste_count prisma (VObj [("where", where_)]) = Return (Fin total) ->
  0 <= total < 2 ^ 53 ->
  exists w' l n,
    getWasteLists prisma req w = (w', Return tt) /\
    statusCode (res w') = statusCode (res w) /\
    sent (res w') =
      (sent (res w) ++
       [VObj [("success", VBool true); ("message", VStr "Success");
              ("data",
               VObj [("items", VArr rows);
                     ("pagination",
                      VObj [("total", VNum (Fin total)); ("page", VNum (page pg));
                            ("limit", VNum (Fin l)); ("totalPages", VNum (Fin n))])])]])%list /\
    1 <= l <= 100 /\
    Z.of_nat (length rows) <= l /\
    l * (n - 1) < total <= l * n.
Proof.
  intros pg where_ Hs Hl Htake Hq Hc Ht.
  destruct (getWasteLists_success prisma req w search rows (Fin total) Hs Hq Hc)
    as (w' & Hrun & Hst & Hsent).
  destruct (getWasteLists_page_size prisma req rows where_ Hl Htake Hq)
    as (l & Hlim & Hrange & Hlen & Hpages).
  destruct (Hpages total Ht) as (n & Hn & Hbounds).
  exists w', l, n. split; [exact Hrun |]. split; [exact Hst |].
  split; [| split; [exact Hrange | split; [exact Hlen | exact Hbounds]]].
  rewrite Hsent. unfold list_envelope. subst pg where_. cbv zeta in Hn, Hlim.
  rewrite Hn, Hlim. reflexivity.
Qed.

Lemma getWasteLists_page_witness :
  exists w' l n,
    getWasteLists (Table.db [] (Table.rows 120))
      (request "/api/waste" [] [("page", VStr "2"); ("limit", VStr "50")]) world0
    = (w', Return tt) /\
    statusCode (res w') = VNum 200 /\
    sent (res w') =
      [VObj [("success", VBool true); ("message", VStr "Success");
             ("data",
              VObj [("items", VArr (take 50 (drop 50 (Table.rows 120))));
                    ("pagination",
                     VObj [("total", VNum (Fin 120)); ("page", VNum (Fin 2));
                           ("limit", VNum (Fin l)); ("totalPages", VNum (Fin n))])])]] /\
    1 <= l <= 100 /\
    Z.of_nat (length (take 50 (drop 50 (Table.rows 120)))) <= l /\
    l * (n - 1) < 120 <= l * n.
Proof.
  apply (getWasteLists_page (Table.db [] (Table.rows 120))
           (request "/api/waste" [] [("page", VStr "2"); ("limit", VStr "50")]) world0
           VUndefined (take 50 (drop 50 (Table.rows 120))) 120).
  - vm_compute. reflexivity.
  - vm_compute. discriminate.
  - apply Table_db_honours_take.
  - vm_compute. reflexivity.
  - vm_compute. reflexivity.
  - vm_compute. split; [discriminate | reflexivity].
Defined.

(** X11: a search term made of white space only is no search: the request
    is answered exactly as the same request without the [search] parameter. *)
Theorem getWasteLists_blank_search prisma req w s :
  prop (query req) "search" = VStr s ->
  trim s = "" ->
  getWasteLists prisma req w = getWasteLists prisma (without_query "search" req) w.
Proof.
  intros Hsearch Hblank.
  assert (Hh : getWasteLists_handler prisma req w
               = getWasteLists_handler prisma (without_query "search" req) w).
  { unfold getWasteLists_handler, bind, lift, prop, without_query. cbn [query].
    rewrite lookup_delete_eq, !lookup_delete_ne by discriminate.
    unfold prop in Hsearch. rewrite Hsearch. cbn [default optional_trim].
    rewrite Hblank. reflexivity. }
  unfold getWasteLists, asyncHandler, try_catch. rewrite Hh. reflexivity.
Qed.

Lemma getWasteLists_blank_search_witness :
  getWasteLists (Table.db [] some_waste)
    (request "/api/waste" [] [("limit", VStr "2"); ("search", VStr "   ")]) world0
  = getWasteLists (Table.db [] some_waste)
      (without_query "search"
         (request "/api/waste" [] [("limit", VStr "2"); ("search", VStr "   ")])) world0.
Proof.
  apply (getWasteLists_blank_search (Table.db [] some_waste)
           (request "/api/waste" [] [("limit", VStr "2"); ("search", VStr "   ")])
           world0 "   "); reflexivity.
Defined.

(** X12: a [name] or [search] parameter that is neither absent nor a string
    (a parameter given twice arrives as an array) makes the handler fail on
    [?.trim()] before any query: the answer is a 500 error envelope with the
    request path. *)
Theorem non_string_parameter prisma req w :
  let fails (h : Request -> M unit) :=
    exists w' env,
      h req w = (w', Return tt) /\
      statusCode (res w') = VNum 500 /\
      sent (res w') = (sent (res w) ++ [env])%list /\
      get env "success" = VBool false /\
      get env "status" = VNum 500 /\
      get env "path" = VStr (path req) in
  (trimmable (prop (query req) "name") = false -> fails (findWasteName prisma)) /\
  (trimmable (prop (query req) "search") = false -> fails (getWasteLists prisma)).
Proof.
  assert (Htrim : forall what v, trimmable v = false ->
                    exists e, optional_trim what v = Throw e /\
                              failure_status e = VNum 500).
  { intros what v Hv. destruct v; try discriminate Hv; eexists; split; reflexivity. }
  cbv zeta. split; intros Hv.
  - destruct (Htrim "req.query.name" _ Hv) as (e & He & Hst).
    edestruct (asyncHandler_renders "" (findWasteName_handler prisma) req w w e)
      as (w' & Hrun & Hstatus & Hsent).
    + unfold findWasteName_handler, bind, lift. rewrite He. reflexivity.
    + exists w'. eexists. split; [exact Hrun |].
      split; [rewrite Hstatus; exact Hst |]. split; [exact Hsent |].
      split; [reflexivity |]. split; [exact Hst | reflexivity].
  - destruct (Htrim "req.query.search" _ Hv) as (e & He & Hst).
    edestruct (asyncHandler_renders "" (getWasteLists_handler prisma) req w w e)
      as (w' & Hrun & Hstatus & Hsent).
    + unfold getWasteLists_handler, bind, lift. rewrite He. reflexivity.
    + exists w'. eexists. split; [exact Hrun |].
      split; [rewrite Hstatus; exact Hst |]. split; [exact Hsent |].
      split; [reflexivity |]. split; [exact Hst | reflexivity].
Qed.

Lemma asyncHandler_agrees name h :
  handler_agrees h ->
  forall req w, exists w' env,
    asyncHandler name h req w = (w', Return tt) /\
    sent (res w') = (sent (res w) ++ [env])%list /\
    status_agrees w w' env.
Proof.
  intros Hh req w. specialize (Hh req w).
  destruct (h req w) as [w1 [[] | e]] eqn:Hrun.
  - destruct Hh as (env & Hsent & Henv).
    exists w1, env. split; [| split]; [| exact Hsent | exact Henv].
    apply asyncHandler_return. exact Hrun.
  - destruct (asyncHandler_renders name h req w w1 e Hrun) as (w2 & Hrun2 & Hst & Hsent).
    eexists w2, _. split; [exact Hrun2 |]. split.
    + rewrite Hsent, Hh. reflexivity.
    + unfold status_agrees. cbn. symmetry. exact Hst.
Qed.

Ltac agrees := simpl; first [reflexivity | eexists; split; reflexivity].

Lemma getAllWasteTypes_handler_agrees prisma :
  handler_agrees (getAllWasteTypes_handler prisma).
Proof.
  intros req w. unfold getAllWasteTypes_handler, bind, lift.
  destruct (waste_type_findMany prisma getAllWasteTypes_args) as [rows | e];
    [| reflexivity].
  rewrite not_length_of. destruct rows; agrees.
Qed.

Lemma getWasteById_handler_agrees prisma :
  handler_agrees (getWasteById_handler prisma).
Proof.
  intros req w. unfold getWasteById_handler, bind, lift.
  destruct (validateId _ _) as [wasteTypeId | e]; [| reflexivity].
  destruct (waste_findMany prisma _) as [rows | e]; [| reflexivity].
  rewrite not_length_of. destruct rows; agrees.
Qed.

Lemma getWasteLists_handler_agrees prisma :
  handler_agrees (getWasteLists_handler prisma).
Proof.
  intros req w. unfold getWasteLists_handler, bind, lift, Promise_all.
  destruct (optional_trim _ _) as [search | e]; [| reflexivity].
  destruct (waste_findMany prisma _) as [rows | e1],
           (waste_count prisma _) as [total | e2]; agrees.
Qed.

Lemma findWasteName_handler_agrees prisma :
  handler_agrees (findWasteName_handler prisma).
Proof.
  intros req w. unfold findWasteName_handler, bind, lift.
  destruct (optional_trim _ _) as [name | e]; [| reflexivity].
  destruct (truthy name); [| agrees].
  cbn [negb].
  destruct (waste_findMany prisma _) as [rows | e]; [| reflexivity].
  rewrite not_length_of. destruct rows; agrees.
Qed.

(** X13: in every answer of the four handlers the [status] property of an
    error envelope is the status code set on the response, and a success
    envelope goes out with the status code the response already had. *)
Theorem handlers_status_agrees prisma req w :
  let agrees (h : Request -> M unit) :=
    exists w' env,
      h req w = (w', Return tt) /\
      sent (res w') = (sent (res w) ++ [env])%list /\
      status_agrees w w' env in
  agrees (getAllWasteTypes prisma) /\
  agrees (getWasteById prisma) /\
  agrees (getWasteLists prisma) /\
  agrees (findWasteName prisma).
Proof.
  cbv zeta. repeat split; apply asyncHandler_agrees.
  - apply getAllWasteTypes_handler_agrees.
  - apply getWasteById_handler_agrees.
  - apply getWasteLists_handler_agrees.
  - apply findWasteName_handler_agrees.
Qed.

Lemma non_string_parameter_witness :
  exists w' env,
    findWasteName (Table.db [] some_waste)
      (request "/api/waste/search" [] [("name", VArr [VStr "a"; VStr "b"])]) world0
    = (w', Return tt) /\
    statusCode (res w') = VNum 500 /\
    sent (res w') = [env] /\
    get env "success" = VBool false /\
    get env "status" = VNum 500 /\
    get env "path" = VStr "/api/waste/search".
Proof.
  destruct (non_string_parameter (Table.db [] some_waste)
              (request "/api/waste/search" [] [("name", VArr [VStr "a"; VStr "b"])]) world0)
    as [Hname _].
  exact (Hname eq_refl).
Defined.

(** ** The cache store, further *)

(** X14: an entry set at the time [now] with a time to live of [ttl] seconds
    is returned by [get] at every time before [now + ttl * 1000] and is
    [null] from that time on; [get] changes nothing. *)
Theorem cache_round_trip cache key w v ttl later :
  (cache < length (stores w))%nat ->
  Z.abs (ttl * 1000) < 2 ^ 53 -> Z.abs (clock w + ttl * 1000) < 2 ^ 53 ->
  let w' := at_time later (cache_set cache key v (Some (Fin ttl)) w).1 in
  cache_get cache key w' =
    (w', Return (if later <? clock w + ttl * 1000 then v else VNull)).
Proof.
  intros Halloc Hms Hexp.
  exact (cache_get_after_set cache key w v ttl later Halloc Hms Hexp).
Qed.

Lemma cache_round_trip_witness :
  let w' t := at_time t (cache_set 0 "k" (VStr "v") (Some (Fin 60)) world_with_store).1 in
  cache_get 0 "k" (w' 59999) = (w' 59999, Return (VStr "v")) /\
  cache_get 0 "k" (w' 60000) = (w' 60000, Return VNull).
Proof.
  split.
  - apply (cache_round_trip 0 "k" world_with_store (VStr "v") 60 59999);
      vm_compute; first [reflexivity | lia].
  - apply (cache_round_trip 0 "k" world_with_store (VStr "v") 60 60000);
      vm_compute; first [reflexivity | lia].
Defined.

(** X15: an entry set with a time to live that is zero or negative is
    never returned, not even at the time it was set. *)
Theorem cache_set_no_ttl cache key w v ttl later :
  (cache < length (stores w))%nat ->
  ttl <= 0 -> clock w <= later ->
  Z.abs (ttl * 1000) < 2 ^ 53 -> Z.abs (clock w + ttl * 1000) < 2 ^ 53 ->
  let w' := at_time later (cache_set cache key v (Some (Fin ttl)) w).1 in
  cache_get cache key w' = (w', Return VNull).
Proof.
  intros Halloc Httl Hlater Hms Hexp w'.
  pose proof (cache_get_after_set cache key w v ttl later Halloc Hms Hexp) as Hget.
  cbv zeta in Hget. unfold w', at_time. rewrite Hget.
  destruct (Z.ltb_spec later (clock w + ttl * 1000)); [lia | reflexivity].
Qed.

Lemma cache_set_no_ttl_witness :
  let w' := at_time 0 (cache_set 0 "k" (VStr "v") (Some (Fin 0)) world_with_store).1 in
  cache_get 0 "k" w' = (w', Return VNull).
Proof.
  apply (cache_set_no_ttl 0 "k" world_with_store (VStr "v") 0 0);
    vm_compute; first [reflexivity | lia | discriminate].
Defined.

(** Writing one store at one key changes no other store and no other key. *)
Lemma store_insert_frame cache key (m : gmap string CacheItem) w cache' key' :
  cache' <> cache \/ key' <> key ->
  (forall k, k <> key -> m !! k = the_store cache w !! k) ->
  default ∅ (<[cache := m]> (stores w) !! cache') !! key' = the_store cache' w !! key'.
Proof.
  intros Hother Hm. unfold the_store in *.
  destruct (decide (cache' = cache)) as [-> | Hc].
  - destruct Hother as [Hc | Hk]; [contradiction |].
    destruct (decide (cache < length (stores w))%nat) as [Hin | Hout].
    + rewrite list_lookup_insert_eq by exact Hin. apply Hm. exact Hk.
    + rewrite list_insert_ge by lia. reflexivity.
  - rewrite list_lookup_insert_ne by congruence. reflexivity.
Qed.

(** X16: [set] and [clear] of a key leave what [get] returns for every
    other key of that store, and for every key of every other store, as it
    was. *)
Theorem cache_frame cache key v ttl w cache' key' :
  cache' <> cache \/ key' <> key ->
  cached_value cache' key' (cache_set cache key v ttl w).1 = cached_value cache' key' w /\
  cached_value cache' key' (cache_clear cache key w).1 = cached_value cache' key' w.
Proof.
  intros Hother. unfold cached_value. split.
  - assert (Hs : the_store cache' (cache_set cache key v ttl w).1 !! key'
                 = the_store cache' w !! key').
    { unfold cache_set, bind, Date_now, Map_set. cbn [fst].
      unfold the_store at 1. cbn [stores].
      apply (store_insert_frame cache key); [exact Hother |].
      intros k Hk. apply lookup_insert_ne. congruence. }
    rewrite Hs. reflexivity.
  - assert (Hs : the_store cache' (cache_clear cache key w).1 !! key'
                 = the_store cache' w !! key').
    { unfold cache_clear, Map_delete. cbn [fst].
      unfold the_store at 1. cbn [stores].
      apply (store_insert_frame cache key); [exact Hother |].
      intros k Hk. apply lookup_delete_ne. congruence. }
    rewrite Hs. reflexivity.
Qed.

Lemma cache_frame_witness :
  cached_value 0 "k" (cache_set 0 "other" (VStr "v") None world_with_zero).1
    = cached_value 0 "k" world_with_zero /\
  cached_value 0 "k" (cache_clear 0 "other" world_with_zero).1
    = cached_value 0 "k" world_with_zero.
Proof.
  apply (cache_frame 0 "other" (VStr "v") None world_with_zero 0 "k").
  right. discriminate.
Defined.

(** X17: after [clear(key)] the key reads as [null], whatever was stored
    and whether or not it had expired; clearing a key that has no entry
    changes nothing. *)
Theorem cache_clear_get cache key w :
  let w' := (cache_clear cache key w).1 in
  cache_get cache key w' = (w', Return VNull) /\
  (the_store cache w !! key = None -> stores w' = stores w).
Proof.
  intros w'. split.
  - rewrite cache_get_spec.
    assert (Hs : the_store cache w' !! key = None).
    { unfold w', cache_clear, Map_delete, the_store. cbn [fst stores].
      destruct (decide (cache < length (stores w))%nat) as [Hin | Hout].
      - rewrite list_lookup_insert_eq by exact Hin. apply lookup_delete_eq.
      - rewrite list_insert_ge by lia.
        rewrite lookup_ge_None_2 by lia. apply lookup_empty. }
    rewrite Hs. reflexivity.
  - intros Hnone. unfold w', cache_clear, Map_delete. cbn [fst stores].
    rewrite delete_id by exact Hnone.
    unfold the_store. destruct (stores w !! cache) as [m |] eqn:Hm.
    + apply list_insert_id. exact Hm.
    + apply list_insert_ge. apply lookup_ge_None_1. exact Hm.
Qed.

(** X18: a second [set] of a key replaces the first: the world is the one
    the second [set] alone would leave. *)
Theorem cache_set_overwrites cache key v1 ttl1 v2 ttl2 w :
  (cache_set cache key v2 ttl2 (cache_set cache key v1 ttl1 w).1).1
  = (cache_set cache key v2 ttl2 w).1.
Proof.
  unfold cache_set, bind, Date_now, Map_set. cbn [fst res logs stores clock].
  f_equal. unfold the_store. cbn [stores].
  destruct (decide (cache < length (stores w))%nat) as [Hin | Hout].
  - rewrite list_lookup_insert_eq by exact Hin.
    rewrite list_insert_insert_eq.
    match goal with
    | |- context [ default ∅ (Some ?m) ] => change (default ∅ (Some m)) with m
    end.
    rewrite insert_insert_eq. reflexivity.
  - rewrite !list_insert_ge by (rewrite ?list_insert_ge by lia; lia). reflexivity.
Qed.

(** ** The decorator and its [set] capability *)

(** X19: when the key computation succeeds and the next stage calls
    [res.locals.cache.set(data)], the data is stored under the computed key in
    the store the middleware created for this request, to expire [ttl]
    seconds (3600 by default) after the call; the stores that existed are
    untouched and the middleware sends nothing. *)
Theorem withCache_populates getCacheKey ttl req w k data :
  cache_key getCacheKey req = Return k ->
  let w1 := (withCache getCacheKey ttl req (fun _ => locals_cache_set data) w).1 in
  stores w1 =
    (stores w ++
     [ {[ k := {| value := data;
                  expires := add (Fin (clock w)) (mul (default (Fin 3600) ttl) 1000) |} ]} ])%list /\
  sent (res w1) = sent (res w).
Proof.
  intros Hk w1. unfold w1, withCache, bind.
  change (createCache w) with ((createCache w).1, Return (length (stores w))).
  unfold try_catch. rewrite withCache_try_spec, Hk.
  assert (Hempty : the_store (length (stores w)) (createCache w).1 = ∅).
  { unfold the_store, createCache. cbn [fst stores].
    rewrite list_lookup_middle by reflexivity. reflexivity. }
  unfold cached_value. rewrite Hempty, lookup_empty. cbn [truthy].
  unfold locals_cache_set, after_miss, set_locals_cache, set_res.
  cbn [fst res locals_cache setter_cache setter_key setter_ttl].
  unfold cache_set, bind, Date_now, Map_set.
  cbn [fst snd res stores clock sent default].
  split; [| reflexivity].
  match goal with
  | |- context [ the_store ?c ?x ] =>
      assert (Hs : the_store c x = ∅) by exact Hempty; rewrite Hs
  end.
  unfold createCache. cbn [fst stores].
  rewrite insert_app_r_alt by lia. rewrite Nat.sub_diag. reflexivity.
Qed.

Lemma withCache_populates_witness :
  stores (withCache (KeyLiteral "waste:list") (Some (Fin 60))
            (request "/api/waste" [] []) (fun _ => locals_cache_set (VStr "page")) world0).1
  = [ {[ "waste:list" := {| value := VStr "page"; expires := Fin 60000 |} ]} ].
Proof.
  destruct (withCache_populates (KeyLiteral "waste:list") (Some (Fin 60))
              (request "/api/waste" [] []) world0 "waste:list" (VStr "page") eq_refl)
    as [Hstores _].
  exact Hstores.
Defined.

(** ** Search by name, every outcome *)

(** C7, as stated, fails: when the query rejects, a request that has a name
    is answered with the wrapper's 500 error envelope, which is none of the
    400 "Waste name is required.", the 404 "No waste found with the given
    name." and a success envelope. *)
Lemma findWasteName_rejected_query :
  respond (findWasteName (rejecting unreachable_database))
    (request "/api/waste/search" [] [("name", VStr "battery")])
  = (VNum 500,
     [VObj [("success", VBool false); ("message", VStr "Can't reach database server");
            ("status", VNum 500); ("path", VStr "/api/waste/search")]]) /\
  ~ (forall prisma req body,
        body ∈ (respond (findWasteName prisma) req).2 ->
        specified_name_search body = true).
Proof.
  split; [vm_compute; reflexivity |].
  intros H.
  specialize (H (rejecting unreachable_database)
                (request "/api/waste/search" [] [("name", VStr "battery")]) _
                ltac:(vm_compute; apply list_elem_of_here)).
  vm_compute in H. discriminate.
Qed.

(** [?.trim()] on a name that is absent or a string gives its search term,
    which is falsy exactly when it is empty. *)
Lemma optional_trim_search_term (what : string) (name : val) :
  trimmable name = true ->
  exists v, optional_trim what name = Return v /\
            truthy v = negb (String.eqb (search_term name) "") /\
            (truthy v = true -> v = VStr (search_term name)).
Proof.
  intros Hname. destruct name; try discriminate Hname.
  - exists VUndefined. repeat split. discriminate.
  - exists VUndefined. repeat split. discriminate.
  - exists (VStr (trim s)). repeat split.
Qed.

(** C7, as the code has it: for a name parameter that is absent or a
    string, the name search answers 400 with "Waste name is required." when
    the name is missing or trims to the empty string; else 404 with "No waste
    found with the given name." when the query returns no row; else, when the
    query returns rows, a success envelope with those rows, at most 50 of them
    for a collaborator that honours the [take: 50] of the query; and when the
    query rejects, the wrapper's error envelope for the failure. *)
Theorem findWasteName_outcomes prisma req w :
  trimmable (prop (query req) "name") = true ->
  let term := search_term (prop (query req) "name") in
  exists w',
    findWasteName prisma req w = (w', Return tt) /\
    if String.eqb term "" then
      statusCode (res w') = VNum 400 /\
      sent (res w') =
        (sent (res w) ++
         [VObj [("success", VBool false); ("message", VStr "Waste name is required.");
                ("status", VNum 400)]])%list
    else
      get (findWasteName_args (VStr term)) "take" = VNum 50 /\
      match waste_findMany prisma (findWasteName_args (VStr term)) with
      | Return [] =>
          statusCode (res w') = VNum 404 /\
          sent (res w') =
            (sent (res w) ++
             [VObj [("success", VBool false);
                    ("message", VStr "No waste found with the given name.");
                    ("status", VNum 404)]])%list
      | Return rows =>
          statusCode (res w') = statusCode (res w) /\
          sent (res w') =
            (sent (res w) ++
             [VObj [("success", VBool true); ("message", VStr "Success");
                    ("data", VArr rows)]])%list /\
          (honours_take prisma -> Z.of_nat (length rows) <= 50)
      | Throw e =>
          statusCode (res w') = failure_status e /\
          sent (res w') = (sent (res w) ++ [rendered req e (failure_status e)])%list
      end.
Proof.
  intros Hname term.
  destruct (optional_trim_search_term "req.query.name" _ Hname) as (v & Htrim & Hv & Hterm).
  fold term in Hv, Hterm. unfold findWasteName.
  destruct (String.eqb term "") eqn:Hempty; cbn [negb] in Hv.
  - eexists. split; [apply asyncHandler_return |].
    + unfold findWasteName_handler, bind, lift. rewrite Htrim, Hv. reflexivity.
    + split; reflexivity.
  - specialize (Hterm Hv). subst v.
    destruct (waste_findMany prisma (findWasteName_args (VStr term))) as [rows | e] eqn:Hq.
    + destruct rows as [| r rows];
        (eexists; split;
         [ apply asyncHandler_return;
           unfold findWasteName_handler, bind, lift; rewrite Htrim, Hv; cbn [negb];
           rewrite Hq, not_length_of; reflexivity
         | ]).
      * split; [reflexivity |]. split; reflexivity.
      * split; [reflexivity |]. split; [reflexivity |]. split; [reflexivity |].
        intros Htake. apply (Htake _ _ 50 Hq). reflexivity.
    + edestruct (asyncHandler_renders "" (findWasteName_handler prisma) req w w e)
        as (w' & Hrun & Hst & Hsent).
      * unfold findWasteName_handler, bind, lift. rewrite Htrim, Hv. cbn [negb].
        rewrite Hq. reflexivity.
      * exists w'. split; [exact Hrun |]. split; [reflexivity |].
        split; [exact Hst | exact Hsent].
Qed.

Lemma findWasteName_outcomes_witness :
  exists w',
    findWasteName (Table.db [] some_waste)
      (request "/api/waste/search" [] [("name", VStr " BATTERY ")]) world0
    = (w', Return tt) /\
    statusCode (res w') = VNum 200 /\
    sent (res w') =
      [VObj [("success", VBool true); ("message", VStr "Success");
             ("data", VArr [Table.waste_row 1 "Car battery" 2;
                            Table.waste_row 3 "Phone battery" 2])]] /\
    Z.of_nat (length [Table.waste_row 1 "Car battery" 2;
                      Table.waste_row 3 "Phone battery" 2]) <= 50.
Proof.
  destruct (findWasteName_outcomes (Table.db [] some_waste)
              (request "/api/waste/search" [] [("name", VStr " BATTERY ")]) world0 eq_refl)
    as (w' & Hrun & _ & Hst & Hsent & Hcap).
  exists w'. split; [exact Hrun |]. split; [exact Hst |]. split; [exact Hsent |].
  apply (Hcap (Table_db_honours_take [] some_waste)).
Defined.
